(** * Code Padlocks: time-windowed one-time codes (script.js)

    A shallow embedding of [script.js] and the properties of its code
    derivation, formatting and matching routines.

    - [JS]: the JavaScript primitives the script calls (numbers, strings,
      [toString], [padStart], [substring], [parseInt], [&], [%]).
    - [SHA256]: an executable HMAC-SHA256, the instance of the browser's
      [crypto.subtle] used to run the script on concrete inputs.
    - the script itself, function by function, in a monad [async] that
      threads the clock behind [Date.now()] and the document, and that
      records whether a promise is fulfilled or rejected. *)

From Stdlib Require Import ZArith List Bool Lia.
From Stdlib.Strings Require Import String Ascii Byte.
Import ListNotations.

Local Open Scope string_scope.
Local Open Scope Z_scope.

(* ================================================================== *)
(** ** JavaScript primitives *)
(* ================================================================== *)

Module JS.

(** A JavaScript number. The script only ever builds integers (clock
    readings, floors of quotients, parsed hexadecimal) and, from
    [parseInt], [NaN]; fractions and infinities are not represented.
    Integers are exact in a double up to 2^53, which covers every clock
    reading ([Date.now()] is bounded by 8.64e15) and every 8-digit
    hexadecimal numeral. *)
Inductive number : Type :=
| NaN
| Num (z : Z).

(** A JavaScript string, as its sequence of code units; [string] holds the
    code units below 256. *)

(** The values [generateOTP] receives as [secret]: a number (what its JSDoc
    announces) or a string (what its two callers pass). *)
Inductive value : Type :=
| VNum (n : number)
| VStr (s : string).

(** The digit of [Number.prototype.toString]: "0".."9", then "a".."z". *)
Definition digitChar (d : Z) : ascii :=
  ascii_of_N (Z.to_N (if d <? 10 then 48 + d else 87 + d)).

(** The digits of a natural number [n] in [radix], most significant first,
    put in front of [acc]. *)
Fixpoint digitsOf (radix : Z) (fuel : nat) (n : Z) (acc : string) : string :=
  match fuel with
  | O => acc
  | S fuel' =>
      let acc' := String (digitChar (n mod radix)) acc in
      if n <? radix then acc' else digitsOf radix fuel' (n / radix) acc'
  end.

(** [Z.log2 n + 1] digits are enough in every radix from 2 on. *)
Definition naturalToString (radix : Z) (n : Z) : string :=
  digitsOf radix (S (Z.to_nat (Z.log2 n))) n "".

(** [x.toString(radix)] on a number: the exact numeral of an integer. This
    is what JavaScript returns for the integers a double holds exactly,
    those below 2^53 in absolute value; from 2^53 on not every integer is a
    number and the digits in a radix other than 10 are left to the
    implementation, so the properties of the renderings keep to integers
    below 2^53. *)
Definition Number_toString (radix : Z) (x : number) : string :=
  match x with
  | NaN => "NaN"
  | Num z =>
      if z <? 0 then String "-" (naturalToString radix (- z))
      else naturalToString radix z
  end.

(** [v.toString(16)]: [String.prototype.toString] takes no argument, the
    radix is dropped and the string is returned as it is. *)
Definition toString16 (v : value) : string :=
  match v with
  | VNum n => Number_toString 16 n
  | VStr s => s
  end.

Fixpoint repeatChar (n : nat) (c : ascii) : string :=
  match n with
  | O => ""
  | S n' => String c (repeatChar n' c)
  end.

(** [s.padStart(targetLength, fill)] with a one-character [fill]: a string
    already long enough is returned unchanged (never cut). *)
Definition padStart (targetLength : nat) (fill : ascii) (s : string) : string :=
  repeatChar (targetLength - String.length s)%nat fill ++ s.

(** [s.length] as a number. *)
Definition lengthOf (s : string) : number := Num (Z.of_nat (String.length s)).

(** An index argument of [substring]: [NaN] is 0, the rest is clamped to
    [0 .. s.length]. *)
Definition toIndex (len : nat) (x : number) : nat :=
  match x with
  | NaN => O
  | Num z => Z.to_nat (Z.min (Z.max z 0) (Z.of_nat len))
  end.

(** [s.substring(start, end)]: the arguments are clamped and swapped when
    [start] is past [end]. *)
Definition substring (s : string) (start end_ : number) : string :=
  let a := toIndex (String.length s) start in
  let b := toIndex (String.length s) end_ in
  String.substring (Nat.min a b) (Nat.max a b - Nat.min a b) s.

(** [s.substring(start)]. *)
Definition substringFrom (s : string) (start : number) : string :=
  substring s start (lengthOf s).

(** Arithmetic on numbers; [NaN] is absorbing. *)
Definition add (x y : number) : number :=
  match x, y with
  | Num a, Num b => Num (a + b)
  | _, _ => NaN
  end.

Definition sub (x y : number) : number :=
  match x, y with
  | Num a, Num b => Num (a - b)
  | _, _ => NaN
  end.

Definition mul (x y : number) : number :=
  match x, y with
  | Num a, Num b => Num (a * b)
  | _, _ => NaN
  end.

(** [x % y]: the remainder has the sign of the dividend; [NaN] for a zero
    divisor. *)
Definition rem (x y : number) : number :=
  match x, y with
  | Num a, Num b => if b =? 0 then NaN else Num (Z.rem a b)
  | _, _ => NaN
  end.

(** [ToInt32]: [NaN] is 0, an integer wraps to the signed 32-bit range. *)
Definition ToInt32 (x : number) : Z :=
  match x with
  | NaN => 0
  | Num z =>
      let m := z mod 2 ^ 32 in
      if 2 ^ 31 <=? m then m - 2 ^ 32 else m
  end.

(** [x & y]. *)
Definition bitand (x y : number) : number :=
  Num (Z.land (ToInt32 x) (ToInt32 y)).

(** [Math.floor(x / y)] for a positive [y] (the script divides by its
    seven window constants only). *)
Definition Math_floor_div (x : number) (y : Z) : number :=
  match x with
  | NaN => NaN
  | Num a => Num (a / y)
  end.

(** White space skipped by [parseInt] (code units below 256). *)
Definition isWhiteSpace (c : ascii) : bool :=
  let n := N_of_ascii c in
  ((9 <=? n) && (n <=? 13) || (n =? 32) || (n =? 160))%N.

(** The value of a digit character, in any radix up to 36. *)
Definition digitValue (c : ascii) : option Z :=
  let n := Z.of_N (N_of_ascii c) in
  if (48 <=? n) && (n <=? 57) then Some (n - 48)
  else if (97 <=? n) && (n <=? 122) then Some (n - 87)
  else if (65 <=? n) && (n <=? 90) then Some (n - 55)
  else None.

Fixpoint skipWhiteSpace (s : string) : string :=
  match s with
  | String c s' => if isWhiteSpace c then skipWhiteSpace s' else s
  | EmptyString => s
  end.

(** The longest prefix of digits of [radix], read most significant first;
    [None] when it is empty. *)
Fixpoint parseDigits (radix : Z) (s : string) (acc : option Z) : option Z :=
  match s with
  | String c s' =>
      match digitValue c with
      | Some d =>
          if d <? radix
          then parseDigits radix s' (Some (match acc with
                                           | Some a => a * radix + d
                                           | None => d
                                           end))
          else acc
      | None => acc
      end
  | EmptyString => acc
  end.

(** A leading "-" or "+". *)
Definition stripSign (s : string) : Z * string :=
  match s with
  | String c r =>
      if Ascii.eqb c "-" then (-1, r)
      else if Ascii.eqb c "+" then (1, r)
      else (1, s)
  | EmptyString => (1, s)
  end.

(** A leading "0x" or "0X", for radix 16 only. *)
Definition stripHexPrefix (radix : Z) (s : string) : string :=
  match s with
  | String c0 (String c1 r) =>
      if (radix =? 16) && Ascii.eqb c0 "0" && (Ascii.eqb c1 "x" || Ascii.eqb c1 "X")
      then r else s
  | _ => s
  end.

(** [parseInt(s, radix)]: white space, a sign, for radix 16 an optional
    "0x", then digits; [NaN] when there is no digit. *)
Definition parseInt (s : string) (radix : Z) : number :=
  let '(sign, digits) := stripSign (skipWhiteSpace s) in
  match parseDigits radix (stripHexPrefix radix digits) None with
  | Some n => Num (sign * n)
  | None => NaN
  end.

(** [s.replaceAll(' ', '')]. *)
Fixpoint removeSpaces (s : string) : string :=
  match s with
  | String c s' =>
      if Ascii.eqb c " " then removeSpaces s' else String c (removeSpaces s')
  | EmptyString => ""
  end.

(** [parts.join('')]. *)
Definition join (parts : list string) : string := String.concat "" parts.

(** [new TextEncoder().encode(s)]: UTF-8; a code unit below 128 is one
    byte, one from 128 to 255 is two. *)
Definition encodeUnit (c : ascii) : list byte :=
  let n := N_of_ascii c in
  if (n <? 128)%N then [byte_of_ascii c]
  else [byte_of_ascii (ascii_of_N (192 + n / 64));
        byte_of_ascii (ascii_of_N (128 + n mod 64))].

Fixpoint TextEncoder_encode (s : string) : list byte :=
  match s with
  | String c s' => (encodeUnit c ++ TextEncoder_encode s')%list
  | EmptyString => []
  end.

(** An element of a [Uint8Array] as a number. *)
Definition byteNumber (b : byte) : number := Num (Z.of_N (Byte.to_N b)).

End JS.

Import JS.

(* ================================================================== *)
(** ** HMAC-SHA256 (FIPS 180-4, RFC 2104)

    The script delegates the keyed hash to [window.crypto.subtle]. The
    properties below are stated for any such primitive; this executable
    one makes the script run on concrete inputs. Words are integers in
    [0, 2^32). *)
(* ================================================================== *)

Module SHA256.

Definition mask32 : Z := 0xffffffff.

Definition add32 (a b : Z) : Z := Z.land (a + b) mask32.

Definition rotr (n x : Z) : Z :=
  Z.lor (Z.shiftr x n) (Z.land (Z.shiftl x (32 - n)) mask32).

Definition Ch (x y z : Z) : Z :=
  Z.lxor (Z.land x y) (Z.land (Z.lxor x mask32) z).

Definition Maj (x y z : Z) : Z :=
  Z.lxor (Z.lxor (Z.land x y) (Z.land x z)) (Z.land y z).

Definition Sigma0 (x : Z) : Z := Z.lxor (Z.lxor (rotr 2 x) (rotr 13 x)) (rotr 22 x).
Definition Sigma1 (x : Z) : Z := Z.lxor (Z.lxor (rotr 6 x) (rotr 11 x)) (rotr 25 x).
Definition sigma0 (x : Z) : Z := Z.lxor (Z.lxor (rotr 7 x) (rotr 18 x)) (Z.shiftr x 3).
Definition sigma1 (x : Z) : Z := Z.lxor (Z.lxor (rotr 17 x) (rotr 19 x)) (Z.shiftr x 10).

(** The first 64 primes: the primes below 312. *)
Definition primes : list Z :=
  Eval vm_compute in
    (let range := map Z.of_nat (seq 2 310) in
     filter (fun n => forallb (fun d => (n <=? d) || negb (n mod d =? 0)) range) range).

(** The integer cube root, bit by bit from bit 39 down. *)
Definition cubeRoot (n : Z) : Z :=
  fold_left (fun r b => if (r + 2 ^ b) ^ 3 <=? n then r + 2 ^ b else r)
            (map Z.of_nat (rev (seq 0 40))) 0.

(** The round constants: the first 32 bits of the fractional parts of the
    cube roots of the first 64 primes. *)
Definition K : list Z :=
  Eval vm_compute in map (fun p => cubeRoot (p * 2 ^ 96) mod 2 ^ 32) primes.

(** The eight working variables. *)
Record state : Type := mkState {
  ha : Z; hb : Z; hc : Z; hd : Z; he : Z; hf : Z; hg : Z; hh : Z
}.

(** The initial hash value: the first 32 bits of the fractional parts of
    the square roots of the first 8 primes. *)
Definition initial (i : nat) : Z :=
  Z.sqrt (nth i primes 0 * 2 ^ 64) mod 2 ^ 32.

Definition H0 : state :=
  Eval vm_compute in
    mkState (initial 0) (initial 1) (initial 2) (initial 3)
            (initial 4) (initial 5) (initial 6) (initial 7).

Definition byteZ (b : byte) : Z := Z.of_N (Byte.to_N b).

Definition zByte (z : Z) : byte :=
  match Byte.of_N (Z.to_N (Z.land z 255)) with
  | Some b => b
  | None => x00
  end.

(** Padding: 0x80, zeros up to 56 modulo 64, the length in bits on 8
    bytes, big-endian. *)
Definition pad (msg : list Z) : list Z :=
  let len := Z.of_nat (List.length msg) in
  let zeros := Z.to_nat ((55 - len) mod 64) in
  let bits := len * 8 in
  (msg ++ [0x80] ++ List.repeat 0 zeros
     ++ map (fun i => Z.land (Z.shiftr bits (8 * i)) 255) [7; 6; 5; 4; 3; 2; 1; 0])%list.

(** Big-endian 32-bit words of a byte list (a short tail is dropped). *)
Fixpoint wordsOf (fuel : nat) (bytes : list Z) : list Z :=
  match fuel, bytes with
  | S fuel', b0 :: b1 :: b2 :: b3 :: rest =>
      (((b0 * 256 + b1) * 256 + b2) * 256 + b3) :: wordsOf fuel' rest
  | _, _ => []
  end.

(** The message schedule, newest word first: from [W(t-1) .. W(t-16)] the
    next word is s1(W(t-2)) + W(t-7) + s0(W(t-15)) + W(t-16). *)
Fixpoint schedule (n : nat) (rev_w : list Z) : list Z :=
  match n with
  | O => rev_w
  | S n' =>
      let w := add32 (add32 (sigma1 (nth 1 rev_w 0)) (nth 6 rev_w 0))
                     (add32 (sigma0 (nth 14 rev_w 0)) (nth 15 rev_w 0)) in
      schedule n' (w :: rev_w)
  end.

Definition round (s : state) (kw : Z * Z) : state :=
  let t1 := add32 (add32 (add32 (hh s) (Sigma1 (he s))) (Ch (he s) (hf s) (hg s)))
                  (add32 (fst kw) (snd kw)) in
  let t2 := add32 (Sigma0 (ha s)) (Maj (ha s) (hb s) (hc s)) in
  mkState (add32 t1 t2) (ha s) (hb s) (hc s) (add32 (hd s) t1) (he s) (hf s) (hg s).

Definition compress (s : state) (block : list Z) : state :=
  let w := rev (schedule 48 (rev block)) in
  let r := fold_left round (combine K w) s in
  mkState (add32 (ha s) (ha r)) (add32 (hb s) (hb r)) (add32 (hc s) (hc r))
          (add32 (hd s) (hd r)) (add32 (he s) (he r)) (add32 (hf s) (hf r))
          (add32 (hg s) (hg r)) (add32 (hh s) (hh r)).

Fixpoint blocks (fuel : nat) (s : state) (words : list Z) : state :=
  match fuel, words with
  | S fuel', _ :: _ => blocks fuel' (compress s (firstn 16 words)) (skipn 16 words)
  | _, _ => s
  end.

Definition wordBytes (w : Z) : list Z :=
  [Z.land (Z.shiftr w 24) 255; Z.land (Z.shiftr w 16) 255;
   Z.land (Z.shiftr w 8) 255; Z.land w 255].

Definition digest (s : state) : list Z :=
  (wordBytes (ha s) ++ wordBytes (hb s) ++ wordBytes (hc s) ++ wordBytes (hd s)
    ++ wordBytes (he s) ++ wordBytes (hf s) ++ wordBytes (hg s) ++ wordBytes (hh s))%list.

Definition sha256Z (msg : list Z) : list Z :=
  let padded := pad msg in
  let words := wordsOf (List.length padded) padded in
  digest (blocks (List.length words) H0 words).

(** HMAC: a key longer than the 64-byte block is hashed first, then padded
    with zeros to the block. *)
Definition hmacZ (key msg : list Z) : list Z :=
  let k0 := if (64 <? List.length key)%nat then sha256Z key else key in
  let k := (k0 ++ List.repeat 0 (64 - List.length k0)%nat)%list in
  let ipad := map (fun b => Z.lxor b 0x36) k in
  let opad := map (fun b => Z.lxor b 0x5c) k in
  sha256Z (opad ++ sha256Z (ipad ++ msg))%list.

Definition sha256 (msg : list byte) : list byte :=
  map zByte (sha256Z (map byteZ msg)).

Definition hmac (key msg : list byte) : list byte :=
  map zByte (hmacZ (map byteZ key) (map byteZ msg)).

End SHA256.

(* ================================================================== *)
(** ** The world of the script and its asynchronous functions *)
(* ================================================================== *)

(** An element of the page: the text of an input field and the text the
    element displays. *)
Record element : Type := mkElement {
  value_ : string;
  innerText : string
}.

(** What the script reads and writes outside its arguments: the clock
    behind [Date.now()] ([clock w n] is the answer to the n-th reading
    since the page was loaded, [ticks w] the number of readings so far)
    and the document ([None] where [getElementById] returns null). The
    document is the elements the script names, each with its own text:
    they are taken not to be nested in one another, so that writing the
    text of one leaves the others as they are. *)
Record world : Type := mkWorld {
  clock : nat -> Z;
  ticks : nat;
  document : string -> option element
}.

(** The exceptions the script can meet: [importKey] on empty key data, and
    a property access on null. *)
Inductive error : Type :=
| DataError
| TypeError.

(** How a promise settles. *)
Inductive outcome (A : Type) : Type :=
| Fulfilled (a : A)
| Rejected (e : error).

Arguments Fulfilled {A} a.
Arguments Rejected {A} e.

(** An [async] function body: it runs in a world, settles and leaves a
    world. *)
Definition async (A : Type) : Type := world -> outcome A * world.

Definition ret {A : Type} (a : A) : async A := fun w => (Fulfilled a, w).

Definition throw {A : Type} (e : error) : async A := fun w => (Rejected e, w).

(** [await]: a rejection ends the function. *)
Definition bind {A B : Type} (c : async A) (k : A -> async B) : async B :=
  fun w =>
    match c w with
    | (Fulfilled a, w') => k a w'
    | (Rejected e, w') => (Rejected e, w')
    end.

Notation "x <- c ;; k" := (bind c (fun x => k))
  (at level 61, c at next level, right associativity).
Notation "c ;;; k" := (bind c (fun _ => k))
  (at level 61, right associativity).

(** [Date.now()]: one reading of the clock. *)
Definition Date_now : async number :=
  fun w => (Fulfilled (Num (clock w (ticks w))),
            mkWorld (clock w) (S (ticks w)) (document w)).

(** [document.getElementById(id).value]. *)
Definition getValue (id : string) : async string :=
  fun w =>
    match document w id with
    | Some e => (Fulfilled (value_ e), w)
    | None => (Rejected TypeError, w)
    end.

(** [document.getElementById(id).innerText = text]. *)
Definition setInnerText (id text : string) : async unit :=
  fun w =>
    match document w id with
    | Some e =>
        (Fulfilled tt,
         mkWorld (clock w) (ticks w)
                 (fun id' => if String.eqb id' id
                             then Some (mkElement (value_ e) text)
                             else document w id'))
    | None => (Rejected TypeError, w)
    end.

(* ================================================================== *)
(** ** script.js *)
(* ================================================================== *)

Section Script.

(** [crypto.subtle.sign("HMAC", key, message)] on the raw bytes of an
    imported key. *)
Variable sign : list byte -> list byte -> list byte.

(** [crypto.subtle.importKey("raw", keyData, HMAC/SHA-256, ...)]: empty key
    data is refused with a DataError. *)
Definition importKey (keyData : list byte) : async (list byte) :=
  match keyData with
  | [] => throw DataError
  | _ => ret keyData
  end.

Definition subtle_sign (cryptoKey message : list byte) : async (list byte) :=
  ret (sign cryptoKey message).

(** script.js, lines 7-14. *)
Definition generateHmac (key message : string) : async string :=
  cryptoKey <- importKey (TextEncoder_encode key) ;;
  signature <- subtle_sign cryptoKey (TextEncoder_encode message) ;;
  ret (join (map (fun b => padStart 2 "0" (Number_toString 16 (byteNumber b)))
                 signature)).

(** script.js, lines 22-29. *)
Definition generateOTP (time : number) (secret : value) : async string :=
  let timeHex := padStart 16 "0" (Number_toString 16 time) in
  let secretHex := padStart 16 "0" (toString16 secret) in
  hmac <- generateHmac secretHex timeHex ;;
  let offset := parseInt (substringFrom hmac (sub (lengthOf hmac) (Num 1))) 16 in
  let otp :=
    rem (bitand (parseInt (substring hmac (mul offset (Num 2))
                                          (add (mul offset (Num 2)) (Num 8))) 16)
                (Num 0x7fffffff))
        (Num 1000000) in
  ret (padStart 6 "0" (Number_toString 10 otp)).

(** script.js, lines 36-39. *)
Definition generateMonthlyOTP (secret : value) : async string :=
  now <- Date_now ;;
  let currentMonthSinceEpoch := Math_floor_div now 2592000000 in
  generateOTP currentMonthSinceEpoch secret.

(** script.js, lines 46-49. *)
Definition generateBiWeeklyOTP (secret : value) : async string :=
  now <- Date_now ;;
  let currentWeekSinceEpoch := Math_floor_div now 1209600000 in
  generateOTP currentWeekSinceEpoch secret.

(** script.js, lines 56-59. *)
Definition generateWeeklyOTP (secret : value) : async string :=
  now <- Date_now ;;
  let currentWeekSinceEpoch := Math_floor_div now 604800000 in
  generateOTP currentWeekSinceEpoch secret.

(** script.js, lines 66-69. *)
Definition generateDailyOTP (secret : value) : async string :=
  now <- Date_now ;;
  let currentDaySinceEpoch := Math_floor_div now 86400000 in
  generateOTP currentDaySinceEpoch secret.

(** script.js, lines 76-79. *)
Definition generateHourlyOTP (secret : value) : async string :=
  now <- Date_now ;;
  let currentHourSinceEpoch := Math_floor_div now 3600000 in
  generateOTP currentHourSinceEpoch secret.

(** script.js, lines 86-89. *)
Definition generate30MinuteOTP (secret : value) : async string :=
  now <- Date_now ;;
  let current30MinutesSinceEpoch := Math_floor_div now 1800000 in
  generateOTP current30MinutesSinceEpoch secret.

(** script.js, lines 96-99. *)
Definition generateMinutelyOTP (secret : value) : async string :=
  now <- Date_now ;;
  let currentMinuteSinceEpoch := Math_floor_div now 60000 in
  generateOTP currentMinuteSinceEpoch secret.

(** script.js, lines 106-108. *)
Definition formatOTP (otp : string) : string :=
  substring otp (Num 0) (Num 3) ++ " " ++ substringFrom otp (Num 3).

(** script.js, lines 113-131: the function [setInterval] runs every
    second. *)
Definition setInterval_callback : async unit :=
  field <- getValue "secret" ;;
  let secret := VStr (removeSpaces field) in
  monthlyOTP <- generateMonthlyOTP secret ;;
  biWeeklyOTP <- generateBiWeeklyOTP secret ;;
  weeklyOTP <- generateWeeklyOTP secret ;;
  dailyOTP <- generateDailyOTP secret ;;
  hourlyOTP <- generateHourlyOTP secret ;;
  thirtyMinuteOTP <- generate30MinuteOTP secret ;;
  minuteOTP <- generateMinutelyOTP secret ;;
  setInnerText "monthly-otp" (formatOTP monthlyOTP) ;;;
  setInnerText "biweekly-otp" (formatOTP biWeeklyOTP) ;;;
  setInnerText "weekly-otp" (formatOTP weeklyOTP) ;;;
  setInnerText "daily-otp" (formatOTP dailyOTP) ;;;
  setInnerText "hourly-otp" (formatOTP hourlyOTP) ;;;
  setInnerText "30-minute-otp" (formatOTP thirtyMinuteOTP) ;;;
  setInnerText "minute-otp" (formatOTP minuteOTP).

(** An entry of the array [codes] of [testCodes]. *)
Record candidate : Type := mkCandidate {
  name : string;
  fn : string
}.

(** script.js, lines 137-157. *)
Definition testCodes : async unit :=
  secretField <- getValue "secret" ;;
  let secret := VStr (removeSpaces secretField) in
  codeField <- getValue "code" ;;
  let code := removeSpaces codeField in
  c1 <- generateMonthlyOTP secret ;;
  c2 <- generateBiWeeklyOTP secret ;;
  c3 <- generateWeeklyOTP secret ;;
  c4 <- generateDailyOTP secret ;;
  c5 <- generateHourlyOTP secret ;;
  c6 <- generate30MinuteOTP secret ;;
  c7 <- generateMinutelyOTP secret ;;
  let codes :=
    [ mkCandidate "Monthly" c1;
      mkCandidate "Bi-Weekly" c2;
      mkCandidate "Weekly" c3;
      mkCandidate "Daily" c4;
      mkCandidate "Hourly" c5;
      mkCandidate "30-Minute" c6;
      mkCandidate "Minute" c7 ] in
  match find (fun c => String.eqb (fn c) code) codes with
  | Some match_ =>
      setInnerText "test-result" ("Code matches " ++ name match_ ++ " code")
  | None =>
      setInnerText "test-result" "Code does not match any code"
  end.

End Script.

(* ================================================================== *)
(** ** Vocabulary of the properties *)
(* ================================================================== *)

Fixpoint forallChars (p : ascii -> bool) (s : string) : bool :=
  match s with
  | String c s' => p c && forallChars p s'
  | EmptyString => true
  end.

(** "0".."9". *)
Definition isDigitChar (c : ascii) : bool :=
  let n := N_of_ascii c in ((48 <=? n) && (n <=? 57))%N.

(** "0".."9" or "a".."f". *)
Definition isLowerHexChar (c : ascii) : bool :=
  let n := N_of_ascii c in
  ((48 <=? n) && (n <=? 57) || (97 <=? n) && (n <=? 102))%N.

Definition isDigits (s : string) : bool := forallChars isDigitChar s.
Definition isLowerHex (s : string) : bool := forallChars isLowerHexChar s.

(** The numeral characters, by position. *)
Definition numerals : string := "0123456789abcdef".

Definition numeralChar (d : Z) : ascii :=
  match String.get (Z.to_nat d) numerals with
  | Some c => c
  | None => "0"
  end.

Fixpoint positionIn (c : ascii) (s : string) : Z :=
  match s with
  | String c' s' => if Ascii.eqb c c' then 0 else 1 + positionIn c s'
  | EmptyString => 0
  end.

Definition numeralValueOfChar (c : ascii) : Z := positionIn c numerals.

(** The numeral of [n] in [radix] on exactly [k] characters, most
    significant first: the character at distance [i] from the right is the
    numeral of [(n / radix^i) mod radix]. *)
Fixpoint fixedWidth (radix : Z) (k : nat) (n : Z) : string :=
  match k with
  | O => ""
  | S k' =>
      String (numeralChar ((n / radix ^ Z.of_nat k') mod radix)) (fixedWidth radix k' n)
  end.

(** Sixteen lowercase hexadecimal characters, zero-padded. *)
Definition hex16 (n : Z) : string := fixedWidth 16 16 n.

(** Six decimal digits, zero-padded. *)
Definition decimal6 (n : Z) : string := fixedWidth 10 6 n.

(** The value of a numeral read most significant character first
    (big-endian). *)
Fixpoint numeralValue (radix : Z) (s : string) : Z :=
  match s with
  | String c s' =>
      numeralValueOfChar c * radix ^ Z.of_nat (String.length s') + numeralValue radix s'
  | EmptyString => 0
  end.

(** The first candidate, in the order of the list, whose code is exactly
    [code]. *)
Fixpoint firstMatch (candidates : list (string * string)) (code : string)
  : option string :=
  match candidates with
  | (label, otp) :: rest =>
      if String.eqb otp code then Some label else firstMatch rest code
  | [] => None
  end.

(** A tag of 64 lowercase hexadecimal characters. *)
Definition isTag (hmac : string) : Prop :=
  String.length hmac = 64%nat /\ isLowerHex hmac = true.

(** The last character of a string, as a string. *)
Definition lastChar (s : string) : string :=
  String.substring (String.length s - 1) 1 s.

(** The seven windows, in the order of the script, in milliseconds. *)
Definition windows : list Z :=
  [2592000000; 1209600000; 604800000; 86400000; 3600000; 1800000; 60000].

(** The text the script displays in an element. *)
Definition shown (w : world) (id : string) : option string :=
  option_map innerText (document w id).

(** [present w ids]: [getElementById] finds every element of [ids]. *)
Definition present (w : world) (ids : list string) : bool :=
  forallb (fun id => match document w id with Some _ => true | None => false end) ids.

(** The parts of [generateOTP], named. *)
Section Parts.

Variable sign : list byte -> list byte -> list byte.

(** Line 23. *)
Definition timeHex (time : number) : string :=
  padStart 16 "0" (Number_toString 16 time).

(** Line 24. *)
Definition secretHex (secret : value) : string :=
  padStart 16 "0" (toString16 secret).

(** Lines 11-13 on the bytes of a signature. *)
Definition hexOf (signature : list byte) : string :=
  join (map (fun b => padStart 2 "0" (Number_toString 16 (byteNumber b))) signature).

(** The tag [generateHmac] returns for a key that is not empty. *)
Definition tagOf (key message : string) : string :=
  hexOf (sign (TextEncoder_encode key) (TextEncoder_encode message)).

(** Line 26. *)
Definition offsetOf (hmac : string) : number :=
  parseInt (substringFrom hmac (sub (lengthOf hmac) (Num 1))) 16.

(** The argument of [parseInt] on line 27. *)
Definition sliceOf (hmac : string) : string :=
  substring hmac (mul (offsetOf hmac) (Num 2)) (add (mul (offsetOf hmac) (Num 2)) (Num 8)).

(** Lines 26-28. *)
Definition truncateOTP (hmac : string) : string :=
  let offset := parseInt (substringFrom hmac (sub (lengthOf hmac) (Num 1))) 16 in
  let otp :=
    rem (bitand (parseInt (substring hmac (mul offset (Num 2))
                                          (add (mul offset (Num 2)) (Num 8))) 16)
                (Num 0x7fffffff))
        (Num 1000000) in
  padStart 6 "0" (Number_toString 10 otp).

(** The code [generateOTP] is fulfilled with. *)
Definition otpOf (time : number) (secret : value) : string :=
  truncateOTP (tagOf (secretHex secret) (timeHex time)).

End Parts.

(** A world with one more clock reading behind it. *)
Definition tick (w : world) : world :=
  mkWorld (clock w) (S (ticks w)) (document w).

(** The answer to the [i]-th clock reading from [w] on. *)
Definition reading (w : world) (i : nat) : Z := clock w (i + ticks w)%nat.

(** The text of an input field. *)
Definition fieldValue (w : world) (id : string) : string :=
  match document w id with
  | Some e => value_ e
  | None => ""
  end.

(** A page with the elements the script names and its two input fields
    filled in. *)
Definition page (secret code : string) : string -> option element :=
  fun id =>
    if String.eqb id "secret" then Some (mkElement secret "")
    else if String.eqb id "code" then Some (mkElement code "")
    else if existsb (String.eqb id)
              ["monthly-otp"; "biweekly-otp"; "weekly-otp"; "daily-otp";
               "hourly-otp"; "30-minute-otp"; "minute-otp"; "test-result"]
    then Some (mkElement "" "")
    else None.

(** The page at its load, under a clock. *)
Definition loaded (clk : nat -> Z) (secret code : string) : world :=
  mkWorld clk 0 (page secret code).

(** A clock that stands still, and one that advances by a millisecond
    between two readings. *)
Definition steady (t : Z) : nat -> Z := fun _ => t.
Definition running (t : Z) : nat -> Z := fun n => t + Z.of_nat n.

(** A pass that starts 5 ms before the end of the first hour, under a
    running clock; the same page with the clock stopped at the start of
    the pass. *)
Definition straddling : world := loaded (running 3599995) "1234" "".
Definition frozen : world := loaded (steady 3599995) "1234" "".

(** A page where the code of the current minute was typed in, in two
    groups. *)
Definition unlocking : world := loaded (steady 1700000000000) "12 34" "900 215".

(** A string without its space characters (U+0020): every other
    character, other white space included, stays, in its place. *)
Definition withoutSpaces (s : string) : string :=
  string_of_list_ascii
    (filter (fun c => negb (Ascii.eqb c " ")) (list_ascii_of_string s)).

(** The page [unlocking] with a tab, and with a no-break space, between the
    two groups of the entered code. *)
Definition tabbed : world :=
  loaded (steady 1700000000000) "12 34" ("900" ++ String (ascii_of_nat 9) "215").
Definition nobreak : world :=
  loaded (steady 1700000000000) "12 34" ("900" ++ String (ascii_of_nat 160) "215").

(** A byte from its value. *)
Definition byteOfZ (z : Z) : byte :=
  match Byte.of_N (Z.to_N z) with
  | Some b => b
  | None => x00
  end.

(** The bytes a hexadecimal string writes, two characters a byte. *)
Fixpoint bytesOfHex (s : string) : list byte :=
  match s with
  | String high (String low rest) =>
      byteOfZ (numeralValueOfChar high * 16 + numeralValueOfChar low) :: bytesOfHex rest
  | _ => []
  end.

(** The value of a byte sequence read most significant byte first. *)
Definition bigEndian (bytes : list byte) : Z :=
  fold_left (fun acc b => acc * 256 + Z.of_N (Byte.to_N b)) bytes 0.

(** The elements the script displays the seven codes in, in its order. *)
Definition outputs : list string :=
  ["monthly-otp"; "biweekly-otp"; "weekly-otp"; "daily-otp";
   "hourly-otp"; "30-minute-otp"; "minute-otp"].

(** The names [testCodes] gives the seven codes, in its order. *)
Definition labels : list string :=
  ["Monthly"; "Bi-Weekly"; "Weekly"; "Daily"; "Hourly"; "30-Minute"; "Minute"].

(** The seven window functions of the script, each with the constant it
    divides the clock by. *)
Definition windowFunctions (sign : list byte -> list byte -> list byte)
  : list (Z * (value -> async string)) :=
  [(2592000000, generateMonthlyOTP sign);
   (1209600000, generateBiWeeklyOTP sign);
   (604800000, generateWeeklyOTP sign);
   (86400000, generateDailyOTP sign);
   (3600000, generateHourlyOTP sign);
   (1800000, generate30MinuteOTP sign);
   (60000, generateMinutelyOTP sign)].

(** The seven codes of a pass that starts in [w]: the code of window
    number [i] comes from the [i]-th reading of the clock. *)
Definition freshCodes (sign : list byte -> list byte -> list byte) (w : world)
  : list string :=
  map (fun iW : nat * Z =>
         otpOf sign (Num (reading w (fst iW) / snd iW))
               (VStr (removeSpaces (fieldValue w "secret"))))
      (combine (seq 0 7) windows).

(** The codes of a pass with their names. *)
Definition candidatesOf (sign : list byte -> list byte -> list byte) (w : world)
  : list (string * string) :=
  combine labels (freshCodes sign w).

(** The text [testCodes] displays. *)
Definition verdict (found : option string) : string :=
  match found with
  | Some label => "Code matches " ++ label ++ " code"
  | None => "Code does not match any code"
  end.

(* ================================================================== *)
(** ** Strings *)
(* ================================================================== *)

Lemma length_app (s t : string) :
  String.length (s ++ t) = (String.length s + String.length t)%nat.
Proof. induction s as [|c s IH]; simpl; [reflexivity | now rewrite IH]. Qed.

Lemma app_empty_r (s : string) : s ++ "" = s.
Proof. induction s as [|c s IH]; simpl; [reflexivity | now rewrite IH]. Qed.

Lemma app_assoc_string (s t u : string) : (s ++ t) ++ u = s ++ (t ++ u).
Proof. induction s as [|c s IH]; simpl; [reflexivity | now rewrite IH]. Qed.

Lemma length_repeatChar (n : nat) (c : ascii) : String.length (repeatChar n c) = n.
Proof. induction n as [|n IH]; simpl; [reflexivity | now rewrite IH]. Qed.

Lemma length_padStart (n : nat) (c : ascii) (s : string) :
  String.length (padStart n c s) = Nat.max n (String.length s).
Proof. unfold padStart. rewrite length_app, length_repeatChar. lia. Qed.

Lemma padStart_long (n : nat) (c : ascii) (s : string) :
  (n <= String.length s)%nat -> padStart n c s = s.
Proof.
  intros H. unfold padStart.
  replace (n - String.length s)%nat with O by lia. reflexivity.
Qed.

Lemma forallChars_app (p : ascii -> bool) (s t : string) :
  forallChars p (s ++ t) = forallChars p s && forallChars p t.
Proof.
  induction s as [|c s IH]; simpl; [reflexivity|].
  now rewrite IH, andb_assoc.
Qed.

Lemma forallChars_repeatChar (p : ascii -> bool) (n : nat) (c : ascii) :
  p c = true -> forallChars p (repeatChar n c) = true.
Proof. intros H. induction n as [|n IH]; simpl; [reflexivity | now rewrite H, IH]. Qed.

Lemma forallChars_impl (p q : ascii -> bool) (s : string) :
  (forall c, p c = true -> q c = true) ->
  forallChars p s = true -> forallChars q s = true.
Proof.
  intros Hpq. induction s as [|c s IH]; simpl; [reflexivity|].
  intros H. apply andb_true_iff in H as [Hc Hs].
  now rewrite (Hpq _ Hc), (IH Hs).
Qed.

Lemma length_substring (s : string) (n m : nat) :
  (n + m <= String.length s)%nat -> String.length (String.substring n m s) = m.
Proof.
  revert n m. induction s as [|c s IH]; intros n m H; simpl in H.
  - assert (n = O /\ m = O) as [-> ->] by lia. reflexivity.
  - destruct n as [|n]; simpl.
    + destruct m as [|m]; simpl; [reflexivity|]. rewrite IH; [reflexivity | simpl; lia].
    + apply IH. lia.
Qed.

Lemma forallChars_substring (p : ascii -> bool) (s : string) (n m : nat) :
  forallChars p s = true -> forallChars p (String.substring n m s) = true.
Proof.
  revert n m. induction s as [|c s IH]; intros n m H; simpl in H.
  - destruct n, m; reflexivity.
  - apply andb_true_iff in H as [Hc Hs].
    destruct n as [|n]; simpl.
    + destruct m as [|m]; simpl; [reflexivity|]. now rewrite Hc, IH.
    + now apply IH.
Qed.

Lemma substring_all (s : string) : String.substring 0 (String.length s) s = s.
Proof. induction s as [|c s IH]; simpl; [reflexivity | now rewrite IH]. Qed.

(** [substring] with both indices in range and in order takes the
    characters from [a] up to [b], [b] excluded. *)
Lemma substring_in_range (s : string) (a b : Z) :
  0 <= a <= b -> b <= Z.of_nat (String.length s) ->
  substring s (Num a) (Num b) = String.substring (Z.to_nat a) (Z.to_nat (b - a)) s.
Proof.
  intros Hab Hb. unfold substring, toIndex.
  replace (Z.to_nat (Z.min (Z.max a 0) (Z.of_nat (String.length s)))) with (Z.to_nat a) by lia.
  replace (Z.to_nat (Z.min (Z.max b 0) (Z.of_nat (String.length s)))) with (Z.to_nat b) by lia.
  rewrite Nat.min_l, Nat.max_r by lia.
  f_equal. lia.
Qed.

Lemma join_cons (x : string) (xs : list string) : join (x :: xs) = x ++ join xs.
Proof.
  unfold join. destruct xs as [|y ys]; simpl.
  - now rewrite app_empty_r.
  - reflexivity.
Qed.

(* ================================================================== *)
(** ** Numerals *)
(* ================================================================== *)

Lemma digitChar_numeralChar (d : Z) : 0 <= d < 16 -> digitChar d = numeralChar d.
Proof.
  intros H.
  assert (d = 0 \/ d = 1 \/ d = 2 \/ d = 3 \/ d = 4 \/ d = 5 \/ d = 6 \/ d = 7 \/
          d = 8 \/ d = 9 \/ d = 10 \/ d = 11 \/ d = 12 \/ d = 13 \/ d = 14 \/ d = 15)
    as Hd by lia.
  repeat (destruct Hd as [-> | Hd]; [reflexivity|]). subst d. reflexivity.
Qed.

Lemma numeralValueOfChar_numeralChar (d : Z) :
  0 <= d < 16 -> numeralValueOfChar (numeralChar d) = d.
Proof.
  intros H.
  assert (d = 0 \/ d = 1 \/ d = 2 \/ d = 3 \/ d = 4 \/ d = 5 \/ d = 6 \/ d = 7 \/
          d = 8 \/ d = 9 \/ d = 10 \/ d = 11 \/ d = 12 \/ d = 13 \/ d = 14 \/ d = 15)
    as Hd by lia.
  repeat (destruct Hd as [-> | Hd]; [reflexivity|]). subst d. reflexivity.
Qed.

Lemma numeralChar_isLowerHex (d : Z) : 0 <= d < 16 -> isLowerHexChar (numeralChar d) = true.
Proof.
  intros H.
  assert (d = 0 \/ d = 1 \/ d = 2 \/ d = 3 \/ d = 4 \/ d = 5 \/ d = 6 \/ d = 7 \/
          d = 8 \/ d = 9 \/ d = 10 \/ d = 11 \/ d = 12 \/ d = 13 \/ d = 14 \/ d = 15)
    as Hd by lia.
  repeat (destruct Hd as [-> | Hd]; [reflexivity|]). subst d. reflexivity.
Qed.

Lemma numeralChar_isDigit (d : Z) : 0 <= d < 10 -> isDigitChar (numeralChar d) = true.
Proof.
  intros H.
  assert (d = 0 \/ d = 1 \/ d = 2 \/ d = 3 \/ d = 4 \/ d = 5 \/ d = 6 \/ d = 7 \/
          d = 8 \/ d = 9) as Hd by lia.
  repeat (destruct Hd as [-> | Hd]; [reflexivity|]). subst d. reflexivity.
Qed.

Lemma length_fixedWidth (radix : Z) (k : nat) (n : Z) :
  String.length (fixedWidth radix k n) = k.
Proof. induction k as [|k IH]; simpl; [reflexivity | now rewrite IH]. Qed.

Lemma fixedWidth_isLowerHex (k : nat) (n : Z) : isLowerHex (fixedWidth 16 k n) = true.
Proof.
  unfold isLowerHex. induction k as [|k IH]; simpl; [reflexivity|].
  rewrite IH, andb_true_r. apply numeralChar_isLowerHex.
  apply Z.mod_pos_bound. lia.
Qed.

Lemma fixedWidth_isDigits (k : nat) (n : Z) : isDigits (fixedWidth 10 k n) = true.
Proof.
  unfold isDigits. induction k as [|k IH]; simpl; [reflexivity|].
  rewrite IH, andb_true_r. apply numeralChar_isDigit.
  apply Z.mod_pos_bound. lia.
Qed.

(** The last character of a fixed-width numeral is the numeral of
    [n mod radix]; the characters before it are the numeral of
    [n / radix]. *)
Lemma fixedWidth_snoc (radix : Z) (k : nat) (n : Z) :
  0 < radix ->
  fixedWidth radix (S k) n =
  fixedWidth radix k (n / radix) ++ String (numeralChar (n mod radix)) "".
Proof.
  intros Hr. induction k as [|k IH].
  - simpl. now rewrite Z.div_1_r.
  - change (fixedWidth radix (S (S k)) n)
      with (String (numeralChar ((n / radix ^ Z.of_nat (S k)) mod radix))
                   (fixedWidth radix (S k) n)).
    rewrite IH. simpl fixedWidth at 2. simpl append. f_equal.
    rewrite Nat2Z.inj_succ, Z.pow_succ_r by lia.
    rewrite Z.div_div by (try apply Z.pow_pos_nonneg; lia).
    reflexivity.
Qed.

(** Zeros in front of a numeral that fits in [k] characters. *)
Lemma fixedWidth_zeros (radix : Z) (j k : nat) (n : Z) :
  1 < radix -> 0 <= n < radix ^ Z.of_nat k ->
  fixedWidth radix (j + k) n = repeatChar j "0" ++ fixedWidth radix k n.
Proof.
  intros Hr Hn. induction j as [|j IH]; [reflexivity|].
  simpl. rewrite IH. f_equal.
  rewrite Z.div_small; [reflexivity|].
  split; [lia|]. apply Z.lt_le_trans with (radix ^ Z.of_nat k); [lia|].
  apply Z.pow_le_mono_r; lia.
Qed.

(** The value of a fixed-width numeral. *)
Lemma numeralValue_fixedWidth (radix : Z) (k : nat) (n : Z) :
  1 < radix <= 16 ->
  numeralValue radix (fixedWidth radix k n) = n mod radix ^ Z.of_nat k.
Proof.
  intros Hr. induction k as [|k IH].
  - simpl. now rewrite Z.mod_1_r.
  - simpl numeralValue. rewrite IH, length_fixedWidth.
    rewrite numeralValueOfChar_numeralChar
      by (pose proof (Z.mod_pos_bound (n / radix ^ Z.of_nat k) radix); lia).
    rewrite Nat2Z.inj_succ, Z.pow_succ_r by lia.
    rewrite (Z.mul_comm radix), Z.rem_mul_r
      by (try apply Z.pow_nonzero; lia).
    lia.
Qed.

(** [digitsOf] writes the shortest numeral of [n]. *)
Lemma digitsOf_fixedWidth (radix : Z) (fuel : nat) :
  1 < radix <= 16 ->
  forall (n : Z) (acc : string),
    0 <= n < radix ^ Z.of_nat (S fuel) ->
    exists j : nat,
      (j = O \/ radix ^ Z.of_nat j <= n) /\
      n < radix ^ Z.of_nat (S j) /\
      digitsOf radix (S fuel) n acc = fixedWidth radix (S j) n ++ acc.
Proof.
  intros Hr. induction fuel as [|fuel IH]; intros n acc Hn.
  - exists O. split; [now left|]. split; [exact (proj2 Hn)|].
    change (radix ^ Z.of_nat 1) with (radix ^ 1) in Hn. rewrite Z.pow_1_r in Hn.
    simpl. destruct (n <? radix); simpl; rewrite Z.div_1_r;
      (rewrite digitChar_numeralChar; [reflexivity|]);
      pose proof (Z.mod_pos_bound n radix); lia.
  - cbn [digitsOf]. destruct (Z.ltb_spec n radix) as [Hlt | Hge].
    + exists O. split; [now left|].
      split; [change (radix ^ Z.of_nat 1) with (radix ^ 1); rewrite Z.pow_1_r; exact Hlt|].
      simpl. rewrite Z.div_1_r.
      rewrite digitChar_numeralChar; [reflexivity|].
      pose proof (Z.mod_pos_bound n radix); lia.
    + destruct (IH (n / radix) (String (digitChar (n mod radix)) acc))
        as [j [Hj [Hup Heq]]].
      { split; [apply Z.div_pos; lia|].
        apply Z.div_lt_upper_bound; [lia|].
        rewrite <- Z.pow_succ_r, <- Nat2Z.inj_succ by lia. lia. }
      exists (S j). split; [|split].
      * right. rewrite Nat2Z.inj_succ, Z.pow_succ_r by lia.
        destruct Hj as [-> | Hj].
        -- simpl. lia.
        -- apply Z.le_trans with (radix * (n / radix));
             [apply Z.mul_le_mono_nonneg_l; lia | apply Z.mul_div_le; lia].
      * rewrite (Nat2Z.inj_succ (S j)), Z.pow_succ_r by lia.
        apply Z.lt_le_trans with (radix * Z.succ (n / radix));
          [apply Z.mul_succ_div_gt; lia | apply Z.mul_le_mono_nonneg_l; lia].
      * cbn [digitsOf] in Heq. rewrite Heq.
        rewrite (fixedWidth_snoc radix (S j) n) by lia.
        rewrite app_assoc_string. simpl append.
        rewrite digitChar_numeralChar; [reflexivity|].
        pose proof (Z.mod_pos_bound n radix); lia.
Qed.

(** [padStart] on the numeral of a natural number that fits: the
    fixed-width, zero-padded numeral. *)
Lemma padStart_naturalToString (radix : Z) (k : nat) (n : Z) :
  1 < radix <= 16 -> (1 <= k)%nat -> 0 <= n < radix ^ Z.of_nat k ->
  padStart k "0" (naturalToString radix n) = fixedWidth radix k n.
Proof.
  intros Hr Hk Hn. unfold naturalToString.
  destruct (digitsOf_fixedWidth radix (Z.to_nat (Z.log2 n)) Hr n "")
    as [j [Hj [Hup Heq]]].
  { split; [lia|].
    destruct (Z.eq_dec n 0) as [-> | Hn0].
    - apply Z.pow_pos_nonneg; lia.
    - pose proof (Z.log2_spec n ltac:(lia)) as [_ Hlog].
      pose proof (Z.log2_nonneg n).
      rewrite Nat2Z.inj_succ, Z2Nat.id by lia.
      apply Z.lt_le_trans with (2 ^ Z.succ (Z.log2 n)); [exact Hlog|].
      apply Z.pow_le_mono_l. lia. }
  rewrite Heq, app_empty_r.
  assert (S j <= k)%nat as Hjk.
  { destruct Hj as [-> | Hj].
    - exact Hk.
    - assert (Z.of_nat j < Z.of_nat k); [|lia].
      apply (Z.pow_lt_mono_r_iff radix); lia. }
  unfold padStart. rewrite length_fixedWidth.
  rewrite <- fixedWidth_zeros.
  - f_equal. lia.
  - lia.
  - split; [lia | exact Hup].
Qed.

(* ================================================================== *)
(** ** Characters *)
(* ================================================================== *)

Ltac each_char c :=
  destruct c as [[] [] [] [] [] [] [] []].

Ltac split_all :=
  repeat match goal with |- _ /\ _ => split end.

Lemma lowerHexChar_facts (c : ascii) :
  isLowerHexChar c = true ->
  isWhiteSpace c = false /\
  Ascii.eqb c "-" = false /\ Ascii.eqb c "+" = false /\
  Ascii.eqb c "x" = false /\ Ascii.eqb c "X" = false /\
  digitValue c = Some (numeralValueOfChar c) /\
  (numeralValueOfChar c <? 16) = true /\
  (0 <=? numeralValueOfChar c) = true.
Proof.
  each_char c; intros H; vm_compute in H; try discriminate H;
    vm_compute; repeat split; reflexivity.
Qed.

Lemma digitChar_facts (c : ascii) :
  isDigitChar c = true ->
  Ascii.eqb c " " = false /\ isLowerHexChar c = true /\
  (numeralValueOfChar c <? 10) = true.
Proof.
  each_char c; intros H; vm_compute in H; try discriminate H;
    vm_compute; repeat split; reflexivity.
Qed.

(* ================================================================== *)
(** ** The tag as a hexadecimal string *)
(* ================================================================== *)

Lemma byte_hex (b : byte) :
  padStart 2 "0" (Number_toString 16 (byteNumber b)) =
  fixedWidth 16 2 (Z.of_N (Byte.to_N b)).
Proof. destruct b; reflexivity. Qed.

Lemma length_hexOf (bs : list byte) :
  String.length (hexOf bs) = (2 * List.length bs)%nat.
Proof.
  unfold hexOf. induction bs as [|b bs IH]; [reflexivity|].
  cbn [map]. rewrite join_cons, length_app, IH, byte_hex, length_fixedWidth.
  simpl List.length. lia.
Qed.

Lemma hexOf_isLowerHex (bs : list byte) : isLowerHex (hexOf bs) = true.
Proof.
  unfold hexOf, isLowerHex. induction bs as [|b bs IH]; [reflexivity|].
  cbn [map]. rewrite join_cons, forallChars_app, IH, byte_hex, andb_true_r.
  apply fixedWidth_isLowerHex.
Qed.

(* ================================================================== *)
(** ** [parseInt] on hexadecimal numerals *)
(* ================================================================== *)

Lemma numeralValue_bounds (s : string) :
  isLowerHex s = true ->
  0 <= numeralValue 16 s < 16 ^ Z.of_nat (String.length s).
Proof.
  unfold isLowerHex. induction s as [|c s IH]; simpl forallChars; intros H.
  - simpl. lia.
  - apply andb_true_iff in H as [Hc Hs]. specialize (IH Hs).
    destruct (lowerHexChar_facts c Hc) as (_ & _ & _ & _ & _ & _ & Hlt & Hge).
    apply Z.ltb_lt in Hlt. apply Z.leb_le in Hge.
    cbn [numeralValue String.length]. rewrite Nat2Z.inj_succ, Z.pow_succ_r by lia.
    nia.
Qed.

Lemma parseDigits_hex (s : string) :
  isLowerHex s = true ->
  forall a : Z,
    parseDigits 16 s (Some a) =
    Some (a * 16 ^ Z.of_nat (String.length s) + numeralValue 16 s).
Proof.
  unfold isLowerHex. induction s as [|c s IH]; simpl forallChars; intros H a.
  - simpl. f_equal. lia.
  - apply andb_true_iff in H as [Hc Hs].
    destruct (lowerHexChar_facts c Hc) as (_ & _ & _ & _ & _ & Hd & Hlt & _).
    cbn [parseDigits]. rewrite Hd, Hlt, (IH Hs).
    cbn [numeralValue String.length]. rewrite Nat2Z.inj_succ, Z.pow_succ_r by lia.
    f_equal. ring.
Qed.

Lemma parseInt_hex (s : string) :
  isLowerHex s = true -> s <> "" ->
  parseInt s 16 = Num (numeralValue 16 s).
Proof.
  intros H Hne. destruct s as [|c s]; [congruence|].
  unfold isLowerHex in H. simpl in H. apply andb_true_iff in H as [Hc Hs].
  destruct (lowerHexChar_facts c Hc) as (Hw & Hm & Hp & _ & _ & Hd & Hlt & _).
  unfold parseInt. cbn [skipWhiteSpace]. rewrite Hw.
  cbn [stripSign]. rewrite Hm, Hp.
  assert (stripHexPrefix 16 (String c s) = String c s) as ->.
  { destruct s as [|c1 r]; [reflexivity|].
    simpl in Hs. apply andb_true_iff in Hs as [Hc1 _].
    destruct (lowerHexChar_facts c1 Hc1) as (_ & _ & _ & Hx & HX & _).
    cbn [stripHexPrefix]. rewrite Hx, HX, andb_false_r. reflexivity. }
  cbn [parseDigits]. rewrite Hd, Hlt, (parseDigits_hex s Hs).
  cbn [numeralValue]. f_equal. lia.
Qed.

(* ================================================================== *)
(** ** Masking and reduction *)
(* ================================================================== *)

Lemma ToInt32_mod (z : Z) : ToInt32 (Num z) mod 2 ^ 31 = z mod 2 ^ 31.
Proof.
  assert ((z mod 2 ^ 32) mod 2 ^ 31 = z mod 2 ^ 31) as Hm.
  { change (2 ^ 32) with (2 ^ 31 * 2).
    rewrite Z.rem_mul_r by lia.
    rewrite (Z.mul_comm (2 ^ 31)), Z_mod_plus_full. apply Z.mod_mod. lia. }
  unfold ToInt32. cbv zeta. destruct (2 ^ 31 <=? z mod 2 ^ 32).
  - replace (z mod 2 ^ 32 - 2 ^ 32) with (z mod 2 ^ 32 + (-2) * 2 ^ 31) by lia.
    now rewrite Z_mod_plus_full.
  - exact Hm.
Qed.

Lemma bitand_mask (y : number) :
  bitand y (Num 0x7fffffff) = Num (ToInt32 y mod 2 ^ 31).
Proof.
  unfold bitand. change (ToInt32 (Num 0x7fffffff)) with (Z.ones 31).
  now rewrite Z.land_ones by lia.
Qed.

Lemma land_mask (z : Z) : Z.land z 0x7fffffff = z mod 2 ^ 31.
Proof. change 0x7fffffff with (Z.ones 31). apply Z.land_ones. lia. Qed.

(** The code is the six-digit numeral of the masked value reduced modulo
    one million, whatever the tag. *)
Lemma truncateOTP_decimal6 (hmac : string) :
  truncateOTP hmac =
  decimal6 ((ToInt32 (parseInt (sliceOf hmac) 16) mod 2 ^ 31) mod 1000000).
Proof.
  unfold truncateOTP, sliceOf, offsetOf. cbv zeta.
  rewrite bitand_mask.
  set (v := ToInt32 _ mod 2 ^ 31).
  assert (0 <= v < 2 ^ 31) as Hv by (apply Z.mod_pos_bound; lia).
  unfold rem. change (1000000 =? 0) with false. cbv iota.
  rewrite Z.rem_mod_nonneg by lia.
  pose proof (Z.mod_pos_bound v 1000000 ltac:(lia)) as Hr.
  unfold Number_toString.
  destruct (Z.ltb_spec (v mod 1000000) 0) as [Hneg | _]; [lia|].
  unfold decimal6. apply padStart_naturalToString; [lia | lia |].
  change (10 ^ Z.of_nat 6) with 1000000. exact Hr.
Qed.

Lemma offsetOf_tag (hmac : string) :
  isTag hmac ->
  offsetOf hmac = Num (numeralValue 16 (lastChar hmac)) /\
  0 <= numeralValue 16 (lastChar hmac) <= 15.
Proof.
  intros [Hlen Hhex]. unfold offsetOf, substringFrom, lengthOf, sub, lastChar.
  rewrite Hlen. rewrite substring_in_range by (rewrite ?Hlen; lia).
  change (Z.to_nat (Z.of_nat 64 - 1)) with 63%nat.
  change (Z.to_nat (Z.of_nat 64 - (Z.of_nat 64 - 1))) with 1%nat.
  change (64 - 1)%nat with 63%nat.
  assert (String.length (String.substring 63 1 hmac) = 1%nat) as Hl
    by (apply length_substring; lia).
  assert (isLowerHex (String.substring 63 1 hmac) = true) as Hh
    by (apply forallChars_substring; exact Hhex).
  split.
  - apply parseInt_hex; [exact Hh|]. intros E. rewrite E in Hl. discriminate.
  - pose proof (numeralValue_bounds _ Hh) as Hb. rewrite Hl in Hb.
    change (16 ^ Z.of_nat 1) with 16 in Hb. lia.
Qed.

Lemma sliceOf_tag (hmac : string) :
  isTag hmac ->
  let offset := numeralValue 16 (lastChar hmac) in
  sliceOf hmac = String.substring (Z.to_nat (offset * 2)) 8 hmac /\
  String.length (sliceOf hmac) = 8%nat /\
  isLowerHex (sliceOf hmac) = true /\
  parseInt (sliceOf hmac) 16 = Num (numeralValue 16 (sliceOf hmac)) /\
  0 <= numeralValue 16 (sliceOf hmac) < 2 ^ 32.
Proof.
  intros Htag offset. destruct (offsetOf_tag hmac Htag) as [Hoff Hb].
  destruct Htag as [Hlen Hhex]. fold offset in Hoff, Hb.
  assert (sliceOf hmac = String.substring (Z.to_nat (offset * 2)) 8 hmac) as Hs.
  { unfold sliceOf. rewrite Hoff. unfold mul, add.
    rewrite substring_in_range by (rewrite ?Hlen; lia).
    f_equal. lia. }
  assert (String.length (sliceOf hmac) = 8%nat) as Hl
    by (rewrite Hs; apply length_substring; lia).
  assert (isLowerHex (sliceOf hmac) = true) as Hh
    by (rewrite Hs; apply forallChars_substring; exact Hhex).
  repeat split; try assumption.
  - apply parseInt_hex; [exact Hh|]. intros E. rewrite E in Hl. discriminate.
  - apply numeralValue_bounds; exact Hh.
  - pose proof (numeralValue_bounds _ Hh) as Hv. rewrite Hl in Hv.
    change (16 ^ Z.of_nat 8) with (2 ^ 32) in Hv. lia.
Qed.

(* ================================================================== *)
(** ** The executable HMAC returns 32 bytes *)
(* ================================================================== *)

Lemma length_digest (s : SHA256.state) : List.length (SHA256.digest s) = 32%nat.
Proof. destruct s; reflexivity. Qed.

Lemma length_hmac (key msg : list byte) : List.length (SHA256.hmac key msg) = 32%nat.
Proof.
  unfold SHA256.hmac, SHA256.hmacZ, SHA256.sha256Z.
  rewrite length_map. apply length_digest.
Qed.

(* ================================================================== *)
(** ** Running the asynchronous functions *)
(* ================================================================== *)

Lemma bind_run {A B : Type} (c : async A) (k : A -> async B) (w w' : world) (a : A) :
  c w = (Fulfilled a, w') -> bind c k w = k a w'.
Proof. intros H. unfold bind. now rewrite H. Qed.

Lemma bind_rejected {A B : Type} (c : async A) (k : A -> async B) (w w' : world) (e : error) :
  c w = (Rejected e, w') -> bind c k w = (Rejected e, w').
Proof. intros H. unfold bind. now rewrite H. Qed.

Lemma encode_nonempty (key : string) : key <> "" -> TextEncoder_encode key <> [].
Proof.
  destruct key as [|c key]; [congruence|]. intros _.
  cbn [TextEncoder_encode]. unfold encodeUnit.
  destruct (N_of_ascii c <? 128)%N; discriminate.
Qed.

Lemma padStart_nonempty (n : nat) (c : ascii) (s : string) :
  (1 <= n)%nat -> padStart n c s <> "".
Proof.
  intros Hn E. pose proof (length_padStart n c s) as H.
  rewrite E in H. simpl in H. lia.
Qed.

Section Runs.

Variable sign : list byte -> list byte -> list byte.

Lemma generateHmac_run (key message : string) (w : world) :
  key <> "" ->
  generateHmac sign key message w = (Fulfilled (tagOf sign key message), w).
Proof.
  intros Hkey. unfold generateHmac, tagOf, hexOf, importKey.
  pose proof (encode_nonempty key Hkey) as Hne.
  destruct (TextEncoder_encode key) as [|b bs]; [congruence|].
  reflexivity.
Qed.

(** The rejection [generateOTP] is protected from by its padding. *)
Lemma generateHmac_empty_key (message : string) (w : world) :
  generateHmac sign "" message w = (Rejected DataError, w).
Proof. reflexivity. Qed.

Lemma generateOTP_run (time : number) (secret : value) (w : world) :
  generateOTP sign time secret w = (Fulfilled (otpOf sign time secret), w).
Proof.
  unfold generateOTP. cbv zeta.
  erewrite bind_run by (apply generateHmac_run, padStart_nonempty; lia).
  reflexivity.
Qed.

Lemma tagOf_isTag (key message : string) :
  (forall k m, List.length (sign k m) = 32%nat) -> isTag (tagOf sign key message).
Proof.
  intros Hlen. unfold isTag, tagOf. split.
  - rewrite length_hexOf, Hlen. reflexivity.
  - apply hexOf_isLowerHex.
Qed.

End Runs.

(* ================================================================== *)
(** ** The code derivation: [generateOTP] *)
(* ================================================================== *)

Section GenerateOTP.

Variable sign : list byte -> list byte -> list byte.

(** The contract of HMAC-SHA256: a tag of 32 bytes. *)
Hypothesis sign_length : forall key message, List.length (sign key message) = 32%nat.

(** C4 (truncation). The tag [T] of [generateOTP] is 64 lowercase
    hexadecimal characters; the offset is the value of the last one, from
    0 to 15; the eight characters from index [offset * 2] on, read as a
    big-endian 32-bit unsigned integer [word], are masked with 0x7fffffff
    and reduced modulo 1,000,000; the code returned is the six-digit
    numeral of that value. *)
Theorem generateOTP_truncation (time : number) (secret : value) (w : world) :
  let T := tagOf sign (secretHex secret) (timeHex time) in
  generateHmac sign (secretHex secret) (timeHex time) w = (Fulfilled T, w) /\
  isTag T /\
  exists offset word : Z,
    offset = numeralValue 16 (lastChar T) /\
    0 <= offset <= 15 /\
    offsetOf T = Num offset /\
    sliceOf T = String.substring (Z.to_nat (offset * 2)) 8 T /\
    word = numeralValue 16 (sliceOf T) /\
    parseInt (sliceOf T) 16 = Num word /\
    0 <= word < 2 ^ 32 /\
    0 <= Z.land word 0x7fffffff < 2 ^ 31 /\
    0 <= Z.land word 0x7fffffff mod 1000000 <= 999999 /\
    generateOTP sign time secret w =
      (Fulfilled (decimal6 (Z.land word 0x7fffffff mod 1000000)), w).
Proof.
  intros T.
  assert (isTag T) as Htag by (apply tagOf_isTag; exact sign_length).
  split; [apply generateHmac_run, padStart_nonempty; lia|].
  split; [exact Htag|].
  destruct (offsetOf_tag T Htag) as [Hoff Hob].
  destruct (sliceOf_tag T Htag) as (Hs & Hl & Hh & Hp & Hw).
  exists (numeralValue 16 (lastChar T)), (numeralValue 16 (sliceOf T)).
  rewrite land_mask.
  pose proof (Z.mod_pos_bound (numeralValue 16 (sliceOf T)) (2 ^ 31) ltac:(lia)) as Hm.
  pose proof (Z.mod_pos_bound (numeralValue 16 (sliceOf T) mod 2 ^ 31) 1000000 ltac:(lia)).
  repeat split; try assumption; try lia.
  rewrite generateOTP_run. unfold otpOf. fold T.
  rewrite truncateOTP_decimal6, Hp, ToInt32_mod. reflexivity.
Qed.

(** C10 (the truncation stays inside the tag). The offset read from the
    last character of the 64-character tag is at most 15, so the slice
    starts at an index of at most 30 and ends at one of at most 38, inside
    the tag; it has exactly 8 hexadecimal characters and [parseInt] reads a
    number from it. *)
Theorem truncation_in_bounds (time : number) (secret : value) (w : world) :
  let T := tagOf sign (secretHex secret) (timeHex time) in
  generateHmac sign (secretHex secret) (timeHex time) w = (Fulfilled T, w) /\
  String.length T = 64%nat /\
  exists offset : Z,
    offsetOf T = Num offset /\
    0 <= offset <= 15 /\
    0 <= offset * 2 <= 30 /\
    offset * 2 + 8 <= 38 /\
    38 < Z.of_nat (String.length T) /\
    sliceOf T = String.substring (Z.to_nat (offset * 2)) 8 T /\
    String.length (sliceOf T) = 8%nat /\
    isLowerHex (sliceOf T) = true /\
    sliceOf T <> "" /\
    parseInt (sliceOf T) 16 <> NaN.
Proof.
  intros T.
  assert (isTag T) as Htag by (apply tagOf_isTag; exact sign_length).
  split; [apply generateHmac_run, padStart_nonempty; lia|].
  split; [exact (proj1 Htag)|].
  destruct (offsetOf_tag T Htag) as [Hoff Hob].
  destruct (sliceOf_tag T Htag) as (Hs & Hl & Hh & Hp & Hw).
  exists (numeralValue 16 (lastChar T)).
  rewrite (proj1 Htag).
  repeat split; try assumption; try lia.
  - intros E. rewrite E in Hl. discriminate.
  - rewrite Hp. discriminate.
Qed.

(** C2, amended (rendering of the inputs). For a time counter and a
    numeric secret that are integers in [0, 2^53), the integers a number
    holds exactly, each is rendered as its 16-character lowercase
    hexadecimal numeral, zero-padded; the rendered secret is the HMAC key,
    the rendered counter the HMAC message, and the tag is a string of 64
    hexadecimal characters from which the code is cut. *)
Theorem generateOTP_hex_rendering (t s : Z) (w : world) :
  0 <= t < 2 ^ 53 -> 0 <= s < 2 ^ 53 ->
  timeHex (Num t) = hex16 t /\
  secretHex (VNum (Num s)) = hex16 s /\
  String.length (hex16 t) = 16%nat /\ isLowerHex (hex16 t) = true /\
  numeralValue 16 (hex16 t) = t /\
  String.length (hex16 s) = 16%nat /\ isLowerHex (hex16 s) = true /\
  numeralValue 16 (hex16 s) = s /\
  generateHmac sign (hex16 s) (hex16 t) w =
    (Fulfilled (hexOf (sign (TextEncoder_encode (hex16 s)) (TextEncoder_encode (hex16 t)))), w) /\
  isTag (tagOf sign (hex16 s) (hex16 t)) /\
  generateOTP sign (Num t) (VNum (Num s)) w =
    (Fulfilled (truncateOTP (tagOf sign (hex16 s) (hex16 t))), w).
Proof.
  intros Ht Hs.
  assert (forall n, 0 <= n < 2 ^ 64 -> padStart 16 "0" (Number_toString 16 (Num n)) = hex16 n)
    as Hrender.
  { intros n Hn. unfold Number_toString.
    destruct (Z.ltb_spec n 0) as [Hneg | _]; [lia|].
    apply padStart_naturalToString; [lia | lia |].
    change (16 ^ Z.of_nat 16) with (2 ^ 64). exact Hn. }
  assert (forall n, 0 <= n < 2 ^ 64 -> numeralValue 16 (hex16 n) = n) as Hvalue.
  { intros n Hn. unfold hex16. rewrite numeralValue_fixedWidth by lia.
    change (16 ^ Z.of_nat 16) with (2 ^ 64). apply Z.mod_small. exact Hn. }
  assert (timeHex (Num t) = hex16 t) as Htime by (apply Hrender; lia).
  assert (secretHex (VNum (Num s)) = hex16 s) as Hsecret by (apply (Hrender s); lia).
  repeat match goal with |- _ /\ _ => split end.
  - exact Htime.
  - exact Hsecret.
  - apply length_fixedWidth.
  - apply fixedWidth_isLowerHex.
  - apply Hvalue; lia.
  - apply length_fixedWidth.
  - apply fixedWidth_isLowerHex.
  - apply Hvalue; lia.
  - rewrite generateHmac_run; [reflexivity|].
    rewrite <- Hsecret. apply padStart_nonempty. lia.
  - apply tagOf_isTag. exact sign_length.
  - rewrite generateOTP_run. unfold otpOf. now rewrite Htime, Hsecret.
Qed.

End GenerateOTP.

Section GenerateOTP_total.

Variable sign : list byte -> list byte -> list byte.

(** C1, amended (no validation). [generateOTP] checks neither of its
    arguments: for every time counter and every secret, empty, malformed,
    negative or over-wide ones included, the call is fulfilled with a code
    and leaves the world as it found it; it is never rejected. *)
Theorem generateOTP_never_rejects (time : number) (secret : value) (w : world) :
  (exists otp : string,
      generateOTP sign time secret w = (Fulfilled otp, w) /\
      String.length otp = 6%nat) /\
  (forall e : error, fst (generateOTP sign time secret w) <> Rejected e).
Proof.
  rewrite generateOTP_run. split.
  - exists (otpOf sign time secret). split; [reflexivity|].
    unfold otpOf. rewrite truncateOTP_decimal6. apply length_fixedWidth.
  - intros e. discriminate.
Qed.

(** C5 (range). The code [generateOTP] returns is a string of exactly six
    decimal digits, the zero-padded numeral of a value from 0 to
    999999. *)
Theorem generateOTP_six_digits (time : number) (secret : value) (w : world) :
  exists (otp : string) (v : Z),
    generateOTP sign time secret w = (Fulfilled otp, w) /\
    String.length otp = 6%nat /\
    isDigits otp = true /\
    0 <= v <= 999999 /\
    otp = decimal6 v /\
    numeralValue 10 otp = v.
Proof.
  rewrite generateOTP_run. unfold otpOf. rewrite truncateOTP_decimal6.
  set (v := _ mod 1000000).
  assert (0 <= v < 1000000) as Hv by (apply Z.mod_pos_bound; lia).
  exists (decimal6 v), v. split_all.
  - reflexivity.
  - apply length_fixedWidth.
  - apply fixedWidth_isDigits.
  - lia.
  - lia.
  - reflexivity.
  - unfold decimal6. rewrite numeralValue_fixedWidth by lia.
    change (10 ^ Z.of_nat 6) with 1000000. apply Z.mod_small. exact Hv.
Qed.

(** C7 (determinism). The code depends on the time counter and the secret
    only: in any two worlds (clock, readings made so far, document) the
    call is fulfilled with the same six characters, and it changes nothing
    in the world it runs in. *)
Theorem generateOTP_deterministic (time : number) (secret : value) (w1 w2 : world) :
  fst (generateOTP sign time secret w1) = fst (generateOTP sign time secret w2) /\
  snd (generateOTP sign time secret w1) = w1 /\
  snd (generateOTP sign time secret w2) = w2 /\
  exists otp : string,
    fst (generateOTP sign time secret w1) = Fulfilled otp /\
    String.length otp = 6%nat.
Proof.
  rewrite !generateOTP_run. split_all; try reflexivity.
  exists (otpOf sign time secret). split; [reflexivity|].
  unfold otpOf. rewrite truncateOTP_decimal6. apply length_fixedWidth.
Qed.

(** C9 (a string secret is the key). For a secret that is a string, the
    radix is ignored: the HMAC key is the string itself, with "0"
    characters in front up to 16 characters, unchanged from 16 characters
    on. Nothing is parsed or checked; the empty string gives the key of
    sixteen zeros, and the call is fulfilled. *)
Theorem string_secret_is_the_key (s : string) (time : number) (w : world) :
  toString16 (VStr s) = s /\
  secretHex (VStr s) =
    (if (16 <=? String.length s)%nat then s
     else repeatChar (16 - String.length s) "0" ++ s) /\
  String.length (secretHex (VStr s)) = Nat.max 16 (String.length s) /\
  secretHex (VStr "") = "0000000000000000" /\
  generateHmac sign (secretHex (VStr s)) (timeHex time) w =
    (Fulfilled (hexOf (sign (TextEncoder_encode (secretHex (VStr s)))
                            (TextEncoder_encode (timeHex time)))), w) /\
  generateOTP sign time (VStr s) w =
    (Fulfilled (truncateOTP (hexOf (sign (TextEncoder_encode (secretHex (VStr s)))
                                         (TextEncoder_encode (timeHex time))))), w).
Proof.
  split_all.
  - reflexivity.
  - unfold secretHex, toString16.
    destruct (Nat.leb_spec 16 (String.length s)) as [Hlong | Hshort].
    + apply padStart_long. exact Hlong.
    + reflexivity.
  - apply length_padStart.
  - reflexivity.
  - apply generateHmac_run, padStart_nonempty. lia.
  - apply generateOTP_run.
Qed.

End GenerateOTP_total.

(* ================================================================== *)
(** ** Formatting: [formatOTP] *)
(* ================================================================== *)

(** C8 (formatting round trip). On a string of six digits, [formatOTP]
    gives the first three characters, one space, the last three
    characters; taking the space out, or joining the two groups, gives the
    six digits back. *)
Theorem formatOTP_round_trip (otp : string) :
  String.length otp = 6%nat -> isDigits otp = true ->
  formatOTP otp = String.substring 0 3 otp ++ " " ++ String.substring 3 3 otp /\
  String.length (formatOTP otp) = 7%nat /\
  String.get 3 (formatOTP otp) = Some " "%char /\
  removeSpaces (formatOTP otp) = otp /\
  String.substring 0 3 (formatOTP otp) ++ String.substring 4 3 (formatOTP otp) = otp.
Proof.
  intros Hlen Hdig.
  destruct otp as [|c1 [|c2 [|c3 [|c4 [|c5 [|c6 [|c7 r]]]]]]]; try discriminate Hlen.
  unfold isDigits in Hdig. cbn [forallChars] in Hdig.
  repeat (apply andb_true_iff in Hdig as [?H Hdig]).
  assert (formatOTP (String c1 (String c2 (String c3 (String c4 (String c5 (String c6 ""))))))
          = String c1 (String c2 (String c3 (String " " (String c4 (String c5 (String c6 "")))))))
    as -> by reflexivity.
  split_all; try reflexivity.
  cbn [removeSpaces].
  repeat match goal with
         | H : isDigitChar ?c = true |- _ =>
             rewrite (proj1 (digitChar_facts c H)); clear H
         end.
  reflexivity.
Qed.

(* ================================================================== *)
(** ** The seven windows and the passes over them *)
(* ================================================================== *)

Lemma reading_tick (w : world) (i : nat) : reading (tick w) i = reading w (S i).
Proof. unfold reading, tick. simpl. f_equal. lia. Qed.

Lemma find_firstMatch (codes : list candidate) (code : string) :
  option_map name (find (fun c => String.eqb (fn c) code) codes) =
  firstMatch (map (fun c => (name c, fn c)) codes) code.
Proof.
  induction codes as [|c codes IH]; [reflexivity|].
  simpl. destruct (String.eqb (fn c) code); [reflexivity | exact IH].
Qed.

Lemma firstMatch_none (candidates : list (string * string)) (code : string) :
  firstMatch candidates code = None <->
  (forall label otp, In (label, otp) candidates -> otp <> code).
Proof.
  induction candidates as [|[l o] rest IH]; simpl.
  - split; [intros _ ? ? [] | reflexivity].
  - destruct (String.eqb_spec o code) as [-> | Hne].
    + split; [discriminate|]. intros H. exfalso. apply (H l code); [now left | reflexivity].
    + rewrite IH. split.
      * intros H l' o' [E | Hin]; [inversion E; subst; exact Hne | eapply H; exact Hin].
      * intros H l' o' Hin. apply (H l'). now right.
Qed.

Lemma firstMatch_skip (candidates rest : list (string * string)) (code : string) :
  (forall label otp, In (label, otp) candidates -> otp <> code) ->
  firstMatch (candidates ++ rest)%list code = firstMatch rest code.
Proof.
  induction candidates as [|[l o] cs IH]; intros H; [reflexivity|].
  simpl. destruct (String.eqb_spec o code) as [E | _].
  - exfalso. apply (H l o); [now left | exact E].
  - apply IH. intros l' o' Hin. apply (H l'). now right.
Qed.

Section Passes.

Variable sign : list byte -> list byte -> list byte.

Ltac run_window :=
  intros; match goal with |- ?f _ _ _ = _ => unfold f end;
  erewrite bind_run by reflexivity; cbv zeta;
  rewrite generateOTP_run; reflexivity.

Lemma generateMonthlyOTP_run (secret : value) (w : world) :
  generateMonthlyOTP sign secret w =
  (Fulfilled (otpOf sign (Num (reading w 0 / 2592000000)) secret), tick w).
Proof. run_window. Qed.

Lemma generateBiWeeklyOTP_run (secret : value) (w : world) :
  generateBiWeeklyOTP sign secret w =
  (Fulfilled (otpOf sign (Num (reading w 0 / 1209600000)) secret), tick w).
Proof. run_window. Qed.

Lemma generateWeeklyOTP_run (secret : value) (w : world) :
  generateWeeklyOTP sign secret w =
  (Fulfilled (otpOf sign (Num (reading w 0 / 604800000)) secret), tick w).
Proof. run_window. Qed.

Lemma generateDailyOTP_run (secret : value) (w : world) :
  generateDailyOTP sign secret w =
  (Fulfilled (otpOf sign (Num (reading w 0 / 86400000)) secret), tick w).
Proof. run_window. Qed.

Lemma generateHourlyOTP_run (secret : value) (w : world) :
  generateHourlyOTP sign secret w =
  (Fulfilled (otpOf sign (Num (reading w 0 / 3600000)) secret), tick w).
Proof. run_window. Qed.

Lemma generate30MinuteOTP_run (secret : value) (w : world) :
  generate30MinuteOTP sign secret w =
  (Fulfilled (otpOf sign (Num (reading w 0 / 1800000)) secret), tick w).
Proof. run_window. Qed.

Lemma generateMinutelyOTP_run (secret : value) (w : world) :
  generateMinutelyOTP sign secret w =
  (Fulfilled (otpOf sign (Num (reading w 0 / 60000)) secret), tick w).
Proof. run_window. Qed.

Lemma getValue_run (id : string) (w : world) (e : element) :
  document w id = Some e -> getValue id w = (Fulfilled (value_ e), w).
Proof. intros H. unfold getValue. now rewrite H. Qed.

Lemma setInnerText_run (id text : string) (w : world) (e : element) :
  document w id = Some e ->
  setInnerText id text w =
  (Fulfilled tt,
   mkWorld (clock w) (ticks w)
           (fun id' => if String.eqb id' id
                       then Some (mkElement (value_ e) text)
                       else document w id')).
Proof. intros H. unfold setInnerText. now rewrite H. Qed.

End Passes.

Lemma removeSpaces_no_space (s : string) :
  forallChars (fun c => negb (Ascii.eqb c " ")) (removeSpaces s) = true.
Proof.
  induction s as [|c s IH]; [reflexivity|].
  cbn [removeSpaces]. destruct (Ascii.eqb c " ") eqn:E; [exact IH|].
  cbn [forallChars]. now rewrite E, IH.
Qed.

Lemma removeSpaces_clean (s : string) :
  forallChars (fun c => negb (Ascii.eqb c " ")) s = true -> removeSpaces s = s.
Proof.
  induction s as [|c s IH]; [reflexivity|].
  cbn [forallChars removeSpaces]. intros H. apply andb_true_iff in H as [Hc Hs].
  apply negb_true_iff in Hc. now rewrite Hc, IH.
Qed.

Lemma removeSpaces_withoutSpaces (s : string) : removeSpaces s = withoutSpaces s.
Proof.
  unfold withoutSpaces. induction s as [|c s IH]; [reflexivity|].
  cbn [removeSpaces list_ascii_of_string filter].
  destruct (Ascii.eqb c " "); cbn [negb string_of_list_ascii]; now rewrite IH.
Qed.

Section Pass_theorems.

Variable sign : list byte -> list byte -> list byte.

Local Opaque otpOf formatOTP removeSpaces.

Ltac find_elements H :=
  unfold present in H; cbn [forallb] in H;
  repeat match type of H with
         | context [document ?w ?id] =>
             let E := fresh "E" in
             destruct (document w id) eqn:E; [|discriminate H]
         end.

Ltac step_write :=
  erewrite bind_run
    by (apply setInnerText_run; cbn; eassumption);
  cbn [clock ticks document tick].

Lemma setInterval_callback_run (w : world) :
  present w ["secret"; "monthly-otp"; "biweekly-otp"; "weekly-otp"; "daily-otp";
             "hourly-otp"; "30-minute-otp"; "minute-otp"] = true ->
  let secret := VStr (removeSpaces (fieldValue w "secret")) in
  let code := fun (i : nat) (window : Z) =>
                Some (formatOTP (otpOf sign (Num (reading w i / window)) secret)) in
  let w' := snd (setInterval_callback sign w) in
  fst (setInterval_callback sign w) = Fulfilled tt /\
  ticks w' = (ticks w + 7)%nat /\
  shown w' "monthly-otp" = code 0%nat 2592000000 /\
  shown w' "biweekly-otp" = code 1%nat 1209600000 /\
  shown w' "weekly-otp" = code 2%nat 604800000 /\
  shown w' "daily-otp" = code 3%nat 86400000 /\
  shown w' "hourly-otp" = code 4%nat 3600000 /\
  shown w' "30-minute-otp" = code 5%nat 1800000 /\
  shown w' "minute-otp" = code 6%nat 60000.
Proof.
  intros H secret code w'.
  find_elements H.
  assert (fieldValue w "secret" = value_ e) as Hfield
    by (unfold fieldValue; now rewrite E).
  subst w'. unfold setInterval_callback.
  erewrite bind_run by (apply getValue_run; eassumption).
  cbv zeta. rewrite <- Hfield. fold secret.
  erewrite bind_run by apply generateMonthlyOTP_run.
  erewrite bind_run by apply generateBiWeeklyOTP_run.
  erewrite bind_run by apply generateWeeklyOTP_run.
  erewrite bind_run by apply generateDailyOTP_run.
  erewrite bind_run by apply generateHourlyOTP_run.
  erewrite bind_run by apply generate30MinuteOTP_run.
  erewrite bind_run by apply generateMinutelyOTP_run.
  rewrite !reading_tick. cbn [clock ticks document tick].
  do 6 step_write.
  erewrite setInnerText_run by (cbn; eassumption).
  cbn [fst snd clock ticks document tick]. split_all.
  - reflexivity.
  - cbn. lia.
  - reflexivity.
  - reflexivity.
  - reflexivity.
  - reflexivity.
  - reflexivity.
  - reflexivity.
  - reflexivity.
Qed.

(** C3, amended (clock readings of a pass). Each of the seven window
    functions reads the clock itself: a pass makes seven readings, and the
    code displayed for a window is derived from the reading made for that
    window, divided by the window and rounded down. When the seven
    readings are one instant, the seven codes are those of that instant. *)
Theorem generation_pass_reads_clock_seven_times (w : world) :
  present w ["secret"; "monthly-otp"; "biweekly-otp"; "weekly-otp"; "daily-otp";
             "hourly-otp"; "30-minute-otp"; "minute-otp"] = true ->
  let secret := VStr (removeSpaces (fieldValue w "secret")) in
  let code := fun (t window : Z) =>
                Some (formatOTP (otpOf sign (Num (t / window)) secret)) in
  let w' := snd (setInterval_callback sign w) in
  fst (setInterval_callback sign w) = Fulfilled tt /\
  ticks w' = (ticks w + 7)%nat /\
  shown w' "monthly-otp" = code (reading w 0) 2592000000 /\
  shown w' "biweekly-otp" = code (reading w 1) 1209600000 /\
  shown w' "weekly-otp" = code (reading w 2) 604800000 /\
  shown w' "daily-otp" = code (reading w 3) 86400000 /\
  shown w' "hourly-otp" = code (reading w 4) 3600000 /\
  shown w' "30-minute-otp" = code (reading w 5) 1800000 /\
  shown w' "minute-otp" = code (reading w 6) 60000 /\
  (forall t : Z,
      (forall i, (i < 7)%nat -> reading w i = t) ->
      map (shown w') ["monthly-otp"; "biweekly-otp"; "weekly-otp"; "daily-otp";
                      "hourly-otp"; "30-minute-otp"; "minute-otp"] =
      map (code t) windows).
Proof.
  intros H secret code w'.
  destruct (setInterval_callback_run w H)
    as (H0 & H1 & H2 & H3 & H4 & H5 & H6 & H7 & H8).
  fold secret in H2, H3, H4, H5, H6, H7, H8. fold w' in H1, H2, H3, H4, H5, H6, H7, H8.
  split; [exact H0|]. split; [exact H1|]. split; [exact H2|].
  split; [exact H3|]. split; [exact H4|]. split; [exact H5|].
  split; [exact H6|]. split; [exact H7|]. split; [exact H8|].
  intros t Ht. cbn [map windows].
  rewrite H2, H3, H4, H5, H6, H7, H8. unfold code.
  rewrite !Ht by lia. reflexivity.
Qed.

(** C6, amended (matching). [testCodes] takes the space characters
    (U+0020), and no other white space, out of the entered code, computes
    the seven codes afresh and compares them with it, by string equality,
    in the order Monthly, Bi-Weekly, Weekly, Daily, Hourly, 30-Minute,
    Minute; it reports the label of the first one that is equal, or that
    none is. When the entered code is the minutely code and none of the
    six before it is equal, the label reported is Minute. *)
Theorem testCodes_first_match (w : world) :
  present w ["secret"; "code"; "test-result"] = true ->
  let secret := VStr (removeSpaces (fieldValue w "secret")) in
  let code := removeSpaces (fieldValue w "code") in
  let otp := fun (i : nat) (window : Z) =>
               otpOf sign (Num (reading w i / window)) secret in
  let higher :=
    [("Monthly", otp 0%nat 2592000000); ("Bi-Weekly", otp 1%nat 1209600000);
     ("Weekly", otp 2%nat 604800000); ("Daily", otp 3%nat 86400000);
     ("Hourly", otp 4%nat 3600000); ("30-Minute", otp 5%nat 1800000)] in
  let minutely := otp 6%nat 60000 in
  let candidates := (higher ++ [("Minute", minutely)])%list in
  let message := fun found : option string =>
                   match found with
                   | Some label => "Code matches " ++ label ++ " code"
                   | None => "Code does not match any code"
                   end in
  let w' := snd (testCodes sign w) in
  fst (testCodes sign w) = Fulfilled tt /\
  ticks w' = (ticks w + 7)%nat /\
  forallChars (fun c => negb (Ascii.eqb c " ")) code = true /\
  shown w' "test-result" = Some (message (firstMatch candidates code)) /\
  (minutely = code ->
   Forall (fun candidate => snd candidate <> code) higher ->
   shown w' "test-result" = Some "Code matches Minute code") /\
  (Forall (fun candidate => snd candidate <> code) candidates ->
   shown w' "test-result" = Some "Code does not match any code") /\
  code = withoutSpaces (fieldValue w "code").
Proof.
  intros H secret code otp higher minutely candidates message w'.
  find_elements H.
  assert (fieldValue w "secret" = value_ e) as Hsecret
    by (unfold fieldValue; now rewrite E).
  assert (fieldValue w "code" = value_ e0) as Hcode
    by (unfold fieldValue; now rewrite E0).
  assert (fst (testCodes sign w) = Fulfilled tt /\
          ticks w' = (ticks w + 7)%nat /\
          shown w' "test-result" = Some (message (firstMatch candidates code)))
    as (Hfst & Hticks & Hshown).
  { subst w'. unfold testCodes.
    erewrite bind_run by (apply getValue_run; eassumption).
    cbv zeta. rewrite <- Hsecret. fold secret.
    erewrite bind_run by (apply getValue_run; eassumption).
    rewrite <- Hcode. fold code.
    erewrite bind_run by apply generateMonthlyOTP_run.
    erewrite bind_run by apply generateBiWeeklyOTP_run.
    erewrite bind_run by apply generateWeeklyOTP_run.
    erewrite bind_run by apply generateDailyOTP_run.
    erewrite bind_run by apply generateHourlyOTP_run.
    erewrite bind_run by apply generate30MinuteOTP_run.
    erewrite bind_run by apply generateMinutelyOTP_run.
    rewrite !reading_tick. cbn [clock ticks document tick].
    match goal with
    | |- context [find ?p ?l] =>
        pose proof (find_firstMatch l code) as Hfind;
        cbn [map name fn] in Hfind;
        destruct (find p l) as [m|]
    end;
      cbn [option_map] in Hfind;
      change (firstMatch candidates code) with
        (firstMatch (higher ++ [("Minute", minutely)])%list code);
      unfold higher, minutely, otp; cbn [app];
      rewrite <- Hfind;
      (erewrite setInnerText_run by (cbn; eassumption));
      cbn [fst snd clock ticks document tick];
      (split; [reflexivity|]); (split; [lia|]); reflexivity. }
  split; [exact Hfst|]. split; [exact Hticks|].
  split; [|split; [exact Hshown|split; [|split]]].
  - apply removeSpaces_no_space.
  - intros Hmin Hhigher. rewrite Hshown. unfold candidates.
    rewrite (firstMatch_skip higher _ code).
    + cbn [firstMatch]. rewrite Hmin, String.eqb_refl. reflexivity.
    + intros label c Hin. rewrite Forall_forall in Hhigher.
      exact (Hhigher (label, c) Hin).
  - intros Hnone. rewrite Hshown.
    assert (firstMatch candidates code = None) as ->; [|reflexivity].
    apply firstMatch_none. intros label c Hin. rewrite Forall_forall in Hnone.
    exact (Hnone (label, c) Hin).
  - exact (removeSpaces_withoutSpaces (fieldValue w "code")).
Qed.

End Pass_theorems.

(* ================================================================== *)
(** ** The script on concrete inputs *)
(* ================================================================== *)

(** The constants of FIPS 180-4, first and last. *)
Example sha256_constants :
  List.length SHA256.primes = 64%nat /\
  nth 63 SHA256.primes 0 = 311 /\
  nth 0 SHA256.K 0 = 0x428a2f98 /\
  nth 63 SHA256.K 0 = 0xc67178f2 /\
  SHA256.ha SHA256.H0 = 0x6a09e667 /\
  SHA256.hh SHA256.H0 = 0x5be0cd19.
Proof. repeat split. Qed.

(** Test vectors of FIPS 180-4 and RFC 4231 (test case 2). *)
Example sha256_abc :
  hexOf (SHA256.sha256 (TextEncoder_encode "abc")) =
  "ba7816bf8f01cfea414140de5dae2223b00361a396177a9cb410ff61f20015ad".
Proof. vm_compute. reflexivity. Qed.

Example sha256_empty :
  hexOf (SHA256.sha256 []) =
  "e3b0c44298fc1c149afbf4c8996fb92427ae41e4649b934ca495991b7852b855".
Proof. vm_compute. reflexivity. Qed.

Example hmac_rfc4231_case2 :
  hexOf (SHA256.hmac (TextEncoder_encode "Jefe")
                     (TextEncoder_encode "what do ya want for nothing?")) =
  "5bdcc146bf60754e6a042426089575c75a003f089d2739839dec58b964ec3843".
Proof. vm_compute. reflexivity. Qed.

(** The reference scenario of the specification: secret
    "0000000000000001", time counter 0. *)
Example reference_vector :
  tagOf SHA256.hmac (secretHex (VStr "0000000000000001")) (timeHex (Num 0)) =
    "70955d18cf3bbee40fc5fd92eb8e235f7a9d822bdef15965610617e274946821" /\
  otpOf SHA256.hmac (Num 0) (VStr "0000000000000001") = "422735".
Proof. split; vm_compute; reflexivity. Qed.

(** The window functions, unlike [generateOTP], depend on the world. *)
Example generateMinutelyOTP_depends_on_the_clock :
  fst (generateMinutelyOTP SHA256.hmac (VStr "1234") (loaded (steady 3599995) "" "")) <>
  fst (generateMinutelyOTP SHA256.hmac (VStr "1234") (loaded (steady 3600000) "" "")).
Proof. vm_compute. discriminate. Qed.

(** A page without the elements: the promise of [testCodes] is rejected. *)
Example testCodes_without_elements :
  fst (testCodes SHA256.hmac (mkWorld (steady 0) 0 (fun _ => None))) = Rejected TypeError.
Proof. reflexivity. Qed.

(** C1, counterexample. An empty secret, a secret that is no hexadecimal
    numeral, a negative time counter and one of 17 hexadecimal digits are
    all accepted: each call is fulfilled with a code, none is rejected. *)
Lemma generateOTP_accepts_invalid_inputs :
  fst (generateOTP SHA256.hmac (Num 0) (VStr "") (loaded (steady 0) "" ""))
    = Fulfilled "567640" /\
  (forall e : error,
      fst (generateOTP SHA256.hmac (Num 0) (VStr "") (loaded (steady 0) "" ""))
        <> Rejected e) /\
  fst (generateOTP SHA256.hmac (Num 0) (VStr "not a hex value") (loaded (steady 0) "" ""))
    = Fulfilled "074587" /\
  fst (generateOTP SHA256.hmac (Num (-1)) (VNum (Num 255)) (loaded (steady 0) "" ""))
    = Fulfilled "740067" /\
  fst (generateOTP SHA256.hmac (Num (2 ^ 64)) (VNum (Num 255)) (loaded (steady 0) "" ""))
    = Fulfilled "156919".
Proof.
  assert (fst (generateOTP SHA256.hmac (Num 0) (VStr "") (loaded (steady 0) "" ""))
          = Fulfilled "567640") as H by (vm_compute; reflexivity).
  split; [exact H|]. split; [intros e; rewrite H; discriminate|].
  split_all; vm_compute; reflexivity.
Qed.

(** C2, counterexample. A negative counter is rendered with its sign, one
    of 2^64 on 17 characters; a string secret is not read as a number: its
    characters are the key, hexadecimal or not, lowercase or not, and
    "255" is not rendered as ff. *)
Lemma hex_rendering_counterexample :
  timeHex (Num (-1)) = "00000000000000-1" /\
  isLowerHex (timeHex (Num (-1))) = false /\
  timeHex (Num (2 ^ 64)) = "10000000000000000" /\
  String.length (timeHex (Num (2 ^ 64))) = 17%nat /\
  secretHex (VStr "xyz") = "0000000000000xyz" /\
  isLowerHex (secretHex (VStr "xyz")) = false /\
  secretHex (VStr "FF") = "00000000000000FF" /\
  isLowerHex (secretHex (VStr "FF")) = false /\
  secretHex (VStr "255") = "0000000000000255" /\
  hex16 255 = "00000000000000ff" /\
  secretHex (VStr "255") <> hex16 255 /\
  generateOTP SHA256.hmac (Num (-1)) (VStr "xyz") (loaded (steady 0) "" "") =
    (Fulfilled (truncateOTP (tagOf SHA256.hmac "0000000000000xyz" "00000000000000-1")),
     loaded (steady 0) "" "").
Proof.
  split_all; try (vm_compute; reflexivity).
  vm_compute. discriminate.
Qed.

(** C3, counterexample. A pass that starts 5 ms before the end of an hour
    reads the clock seven times. The hourly code is the one of hour 0 and
    the 30-minute code the one of half-hour 2, which lies in hour 1: no
    instant has both counters. With the same first reading and a clock
    that stands still, the codes displayed are different. *)
Lemma generation_pass_straddles_a_window :
  ticks straddling = 0%nat /\
  ticks (snd (setInterval_callback SHA256.hmac straddling)) = 7%nat /\
  ticks (snd (setInterval_callback SHA256.hmac straddling)) <> 1%nat /\
  reading straddling 4 / 3600000 = 0 /\
  reading straddling 5 / 1800000 = 2 /\
  shown (snd (setInterval_callback SHA256.hmac straddling)) "hourly-otp" =
    Some (formatOTP (otpOf SHA256.hmac (Num 0) (VStr "1234"))) /\
  shown (snd (setInterval_callback SHA256.hmac straddling)) "30-minute-otp" =
    Some (formatOTP (otpOf SHA256.hmac (Num 2) (VStr "1234"))) /\
  (forall t : Z, t / 3600000 = 0 -> t / 1800000 <> 2) /\
  reading straddling 0 = reading frozen 0 /\
  shown (snd (setInterval_callback SHA256.hmac straddling)) "30-minute-otp" = Some "999 708" /\
  shown (snd (setInterval_callback SHA256.hmac frozen)) "30-minute-otp" = Some "676 931".
Proof.
  assert (forall t : Z, t / 3600000 = 0 -> t / 1800000 <> 2) as Hno
    by (intros t H0 H2; Z.to_euclidean_division_equations; lia).
  split_all; try exact Hno; try (vm_compute; reflexivity).
  vm_compute. discriminate.
Qed.

(** C6, counterexample. The code of the current minute is 900215. Typed
    with a space between its two groups it is accepted; typed with a tab,
    or with a no-break space, both white space, it is compared as typed
    and refused. *)
Lemma testCodes_keeps_other_white_space :
  otpOf SHA256.hmac (Num (reading unlocking 6 / 60000)) (VStr "1234") = "900215" /\
  fieldValue unlocking "code" = "900 215" /\
  shown (snd (testCodes SHA256.hmac unlocking)) "test-result" =
    Some "Code matches Minute code" /\
  isWhiteSpace (ascii_of_nat 9) = true /\
  fieldValue tabbed "code" = "900" ++ String (ascii_of_nat 9) "215" /\
  removeSpaces (fieldValue tabbed "code") = fieldValue tabbed "code" /\
  shown (snd (testCodes SHA256.hmac tabbed)) "test-result" =
    Some "Code does not match any code" /\
  isWhiteSpace (ascii_of_nat 160) = true /\
  fieldValue nobreak "code" = "900" ++ String (ascii_of_nat 160) "215" /\
  removeSpaces (fieldValue nobreak "code") = fieldValue nobreak "code" /\
  shown (snd (testCodes SHA256.hmac nobreak)) "test-result" =
    Some "Code does not match any code".
Proof. split_all; vm_compute; reflexivity. Qed.

(** C2, witness: minute counter 28333333 and the numeric secret 255. *)
Lemma generateOTP_hex_rendering_witness :
  (forall key message, List.length (SHA256.hmac key message) = 32%nat) /\
  0 <= 28333333 < 2 ^ 53 /\
  0 <= 255 < 2 ^ 53 /\
  timeHex (Num 28333333) = hex16 28333333 /\
  secretHex (VNum (Num 255)) = hex16 255 /\
  isTag (tagOf SHA256.hmac (hex16 255) (hex16 28333333)) /\
  generateOTP SHA256.hmac (Num 28333333) (VNum (Num 255)) unlocking =
    (Fulfilled (truncateOTP (tagOf SHA256.hmac (hex16 255) (hex16 28333333))), unlocking).
Proof.
  assert (0 <= 28333333 < 2 ^ 53) as Ht by lia.
  assert (0 <= 255 < 2 ^ 53) as Hs by lia.
  destruct (generateOTP_hex_rendering SHA256.hmac length_hmac 28333333 255 unlocking Ht Hs)
    as (H1 & H2 & _ & _ & _ & _ & _ & _ & _ & H3 & H4).
  split; [exact length_hmac|]. split; [exact Ht|]. split; [exact Hs|].
  split; [exact H1|]. split; [exact H2|]. split; [exact H3 | exact H4].
Defined.

(** C3, witness: a pass on the page [unlocking]. *)
Lemma generation_pass_witness :
  present unlocking ["secret"; "monthly-otp"; "biweekly-otp"; "weekly-otp"; "daily-otp";
                     "hourly-otp"; "30-minute-otp"; "minute-otp"] = true /\
  ticks (snd (setInterval_callback SHA256.hmac unlocking)) = (ticks unlocking + 7)%nat /\
  shown (snd (setInterval_callback SHA256.hmac unlocking)) "minute-otp" =
    Some (formatOTP (otpOf SHA256.hmac (Num (reading unlocking 6 / 60000))
                           (VStr (removeSpaces (fieldValue unlocking "secret"))))).
Proof.
  split; [reflexivity|].
  pose proof (generation_pass_reads_clock_seven_times SHA256.hmac unlocking eq_refl) as H.
  cbv zeta in H.
  destruct H as (_ & Hticks & _ & _ & _ & _ & _ & _ & Hminute & _).
  split; [exact Hticks | exact Hminute].
Defined.

(** C4, witness: the reference scenario. *)
Lemma generateOTP_truncation_witness :
  (forall key message, List.length (SHA256.hmac key message) = 32%nat) /\
  exists offset word : Z,
    0 <= offset <= 15 /\
    0 <= word < 2 ^ 32 /\
    generateOTP SHA256.hmac (Num 0) (VStr "0000000000000001") unlocking =
      (Fulfilled (decimal6 (Z.land word 0x7fffffff mod 1000000)), unlocking).
Proof.
  split; [exact length_hmac|].
  destruct (generateOTP_truncation SHA256.hmac length_hmac
              (Num 0) (VStr "0000000000000001") unlocking)
    as (_ & _ & offset & word & _ & Hoffset & _ & _ & _ & _ & Hword & _ & _ & Hrun).
  exists offset, word.
  split; [exact Hoffset|]. split; [exact Hword | exact Hrun].
Defined.

(** C6, witness: the code of the current minute, typed in two groups. *)
Lemma testCodes_first_match_witness :
  present unlocking ["secret"; "code"; "test-result"] = true /\
  shown (snd (testCodes SHA256.hmac unlocking)) "test-result" =
    Some "Code matches Minute code".
Proof.
  split; [reflexivity|].
  pose proof (testCodes_first_match SHA256.hmac unlocking eq_refl) as H.
  cbv zeta in H.
  destruct H as (_ & _ & _ & _ & Hminute & _).
  apply Hminute.
  - vm_compute. reflexivity.
  - repeat (apply Forall_cons; [vm_compute; discriminate|]).
    apply Forall_nil.
Defined.

(** C8, witness. *)
Lemma formatOTP_round_trip_witness :
  String.length "123456" = 6%nat /\
  isDigits "123456" = true /\
  formatOTP "123456" = "123 456" /\
  removeSpaces (formatOTP "123456") = "123456".
Proof.
  destruct (formatOTP_round_trip "123456" eq_refl eq_refl) as (Hformat & _ & _ & Hback & _).
  split; [reflexivity|]. split; [reflexivity|]. split; [exact Hformat | exact Hback].
Defined.

(** C10, witness: the reference scenario. *)
Lemma truncation_in_bounds_witness :
  (forall key message, List.length (SHA256.hmac key message) = 32%nat) /\
  String.length (sliceOf (tagOf SHA256.hmac (secretHex (VStr "0000000000000001"))
                                (timeHex (Num 0)))) = 8%nat /\
  parseInt (sliceOf (tagOf SHA256.hmac (secretHex (VStr "0000000000000001"))
                           (timeHex (Num 0)))) 16 <> NaN.
Proof.
  split; [exact length_hmac|].
  destruct (truncation_in_bounds SHA256.hmac length_hmac
              (Num 0) (VStr "0000000000000001") unlocking)
    as (_ & _ & offset & _ & _ & _ & _ & _ & _ & Hlength & _ & _ & Hparse).
  split; [exact Hlength | exact Hparse].
Defined.

(* ================================================================== *)
(** ** Further properties of the script *)
(* ================================================================== *)

Lemma removeSpaces_app (s t : string) :
  removeSpaces (s ++ t) = removeSpaces s ++ removeSpaces t.
Proof.
  induction s as [|c s IH]; [reflexivity|].
  cbn [append removeSpaces]. destruct (Ascii.eqb c " "); [exact IH|].
  cbn [append]. now rewrite IH.
Qed.

(** The two parts [formatOTP] puts a space between. *)
Lemma formatOTP_parts (s : string) :
  formatOTP s =
  String.substring 0 3 s ++ " " ++ String.substring 3 (String.length s - 3) s.
Proof.
  destruct s as [|c1 [|c2 [|c3 r]]]; try reflexivity.
  unfold formatOTP, substringFrom, lengthOf.
  set (s := String c1 (String c2 (String c3 r))).
  assert (3 <= Z.of_nat (String.length s)) as Hs by (subst s; cbn [String.length]; lia).
  rewrite (substring_in_range s 0 3) by lia.
  rewrite (substring_in_range s 3 (Z.of_nat (String.length s))) by lia.
  replace (Z.to_nat (Z.of_nat (String.length s) - 3)) with (String.length s - 3)%nat by lia.
  reflexivity.
Qed.

Lemma substring_split (s : string) (n : nat) :
  String.substring 0 n s ++ String.substring n (String.length s - n) s = s.
Proof.
  revert n. induction s as [|c s IH]; intros n.
  - destruct n; reflexivity.
  - destruct n as [|n].
    + cbn [String.substring append]. change (String.length (String c s) - 0)%nat
        with (S (String.length s)). cbn [String.substring].
      now rewrite substring_all.
    + cbn [String.substring append String.length Nat.sub]. now rewrite IH.
Qed.

Lemma formatOTP_inserts_one_space_aux (s : string) :
  formatOTP s =
    String.substring 0 3 s ++ " " ++ String.substring 3 (String.length s - 3) s /\
  removeSpaces (formatOTP s) = removeSpaces s.
Proof.
  split; [apply formatOTP_parts|].
  rewrite formatOTP_parts.
  pose proof (f_equal removeSpaces (substring_split s 3)) as Hr.
  rewrite removeSpaces_app in Hr. rewrite !removeSpaces_app. exact Hr.
Qed.

(** [formatOTP] on any string: one space is put after the third character,
    or at the end of a string of fewer than three; no character is lost or
    changed, and taking the spaces out afterwards is taking them out of
    the string. *)
Theorem formatOTP_inserts_one_space (s : string) :
  exists first rest : string,
    s = first ++ rest /\
    String.length first = Nat.min 3 (String.length s) /\
    formatOTP s = first ++ " " ++ rest /\
    String.length (formatOTP s) = S (String.length s) /\
    removeSpaces (formatOTP s) = removeSpaces s.
Proof.
  exists (String.substring 0 3 s), (String.substring 3 (String.length s - 3) s).
  pose proof (substring_split s 3) as Hsplit.
  assert (String.length (String.substring 0 3 s) = Nat.min 3 (String.length s)) as Hlen.
  { destruct s as [|c1 [|c2 [|c3 r]]]; try reflexivity.
    rewrite length_substring by (cbn [String.length]; lia).
    cbn [String.length]. lia. }
  split; [symmetry; exact Hsplit|]. split; [exact Hlen|].
  split; [apply formatOTP_parts|].
  rewrite formatOTP_parts. split.
  - pose proof (f_equal String.length Hsplit) as Hl. rewrite length_app in Hl.
    rewrite !length_app. cbn [String.length]. lia.
  - pose proof (f_equal removeSpaces Hsplit) as Hr. rewrite removeSpaces_app in Hr.
    rewrite !removeSpaces_app. exact Hr.
Qed.

(** *** The message and the key as numerals *)

Lemma numeralValue_zeros (radix : Z) (k : nat) (s : string) :
  numeralValue radix (repeatChar k "0" ++ s) = numeralValue radix s.
Proof.
  induction k as [|k IH]; [reflexivity|].
  cbn [repeatChar append numeralValue]. rewrite IH.
  change (numeralValueOfChar "0") with 0. lia.
Qed.

Lemma naturalToString_shortest (radix n : Z) :
  1 < radix <= 16 -> 0 <= n ->
  exists j : nat,
    n < radix ^ Z.of_nat (S j) /\
    naturalToString radix n = fixedWidth radix (S j) n.
Proof.
  intros Hr Hn. unfold naturalToString.
  destruct (digitsOf_fixedWidth radix (Z.to_nat (Z.log2 n)) Hr n "")
    as [j [_ [Hup Heq]]].
  { split; [lia|].
    destruct (Z.eq_dec n 0) as [-> | Hn0].
    - apply Z.pow_pos_nonneg; lia.
    - pose proof (Z.log2_spec n ltac:(lia)) as [_ Hlog].
      pose proof (Z.log2_nonneg n).
      rewrite Nat2Z.inj_succ, Z2Nat.id by lia.
      apply Z.lt_le_trans with (2 ^ Z.succ (Z.log2 n)); [exact Hlog|].
      apply Z.pow_le_mono_l. lia. }
  exists j. split; [exact Hup|]. now rewrite Heq, app_empty_r.
Qed.

Lemma timeHex_numeral (t : Z) :
  0 <= t ->
  isLowerHex (timeHex (Num t)) = true /\ numeralValue 16 (timeHex (Num t)) = t.
Proof.
  intros Ht. unfold timeHex, Number_toString.
  destruct (Z.ltb_spec t 0) as [Hneg | _]; [lia|].
  destruct (naturalToString_shortest 16 t ltac:(lia) Ht) as [j [Hup ->]].
  unfold padStart. split.
  - unfold isLowerHex. rewrite forallChars_app, forallChars_repeatChar by reflexivity.
    apply fixedWidth_isLowerHex.
  - rewrite numeralValue_zeros, numeralValue_fixedWidth by lia.
    apply Z.mod_small. lia.
Qed.

(** The HMAC message of a time counter in [0, 2^53), the range of the
    integers a number holds exactly, which contains every counter the
    window functions derive from a clock that is not before the epoch:
    exactly 16 lowercase hexadecimal characters whose value is the
    counter, which [parseInt] reads back; two such counters with the same
    message are the same counter. *)
Theorem time_counter_reads_back (t : Z) :
  0 <= t < 2 ^ 53 ->
  String.length (timeHex (Num t)) = 16%nat /\
  isLowerHex (timeHex (Num t)) = true /\
  numeralValue 16 (timeHex (Num t)) = t /\
  parseInt (timeHex (Num t)) 16 = Num t /\
  (forall t' : Z, 0 <= t' < 2 ^ 53 -> timeHex (Num t') = timeHex (Num t) -> t' = t).
Proof.
  intros Ht. destruct (timeHex_numeral t (proj1 Ht)) as [Hhex Hval].
  assert (timeHex (Num t) = hex16 t) as Hfixed.
  { unfold timeHex, Number_toString.
    destruct (Z.ltb_spec t 0) as [Hneg | _]; [lia|].
    apply padStart_naturalToString; [lia | lia |].
    change (16 ^ Z.of_nat 16) with (2 ^ 64). lia. }
  split; [rewrite Hfixed; apply length_fixedWidth|].
  split; [exact Hhex|]. split; [exact Hval|]. split.
  - rewrite parseInt_hex, Hval; [reflexivity | exact Hhex |].
    unfold timeHex. apply padStart_nonempty. lia.
  - intros t' Ht' E. destruct (timeHex_numeral t' (proj1 Ht')) as [_ Hval'].
    rewrite <- Hval, <- Hval', E. reflexivity.
Qed.

Lemma repeatChar_add (j k : nat) (c : ascii) :
  repeatChar j c ++ repeatChar k c = repeatChar (j + k) c.
Proof. induction j as [|j IH]; [reflexivity|]. cbn [repeatChar append Nat.add]. now rewrite IH. Qed.

Section Further.

Variable sign : list byte -> list byte -> list byte.

(** Secrets that give the same codes. A string secret of at most 16
    characters and the same string with "0" characters in front, up to 16
    characters in all, are one key; so are an integer in [0, 2^53), the
    range of the integers a number holds exactly, and the string of its 16
    hexadecimal digits. *)
Theorem secrets_with_the_same_codes
    (s : string) (k : nat) (n : Z) (time : number) (w : world) :
  (k + String.length s <= 16)%nat -> 0 <= n < 2 ^ 53 ->
  secretHex (VStr (repeatChar k "0" ++ s)) = secretHex (VStr s) /\
  generateOTP sign time (VStr (repeatChar k "0" ++ s)) w =
    generateOTP sign time (VStr s) w /\
  secretHex (VStr (hex16 n)) = secretHex (VNum (Num n)) /\
  generateOTP sign time (VStr (hex16 n)) w = generateOTP sign time (VNum (Num n)) w.
Proof.
  intros Hk Hn.
  assert (secretHex (VStr (repeatChar k "0" ++ s)) = secretHex (VStr s)) as Hzeros.
  { unfold secretHex, toString16, padStart.
    rewrite length_app, length_repeatChar, <- app_assoc_string, repeatChar_add.
    f_equal. f_equal. lia. }
  assert (secretHex (VStr (hex16 n)) = secretHex (VNum (Num n))) as Hnum.
  { unfold secretHex, toString16, Number_toString.
    destruct (Z.ltb_spec n 0) as [Hneg | _]; [lia|].
    rewrite (padStart_naturalToString 16 16 n)
      by (try lia; change (16 ^ Z.of_nat 16) with (2 ^ 64); lia).
    apply padStart_long. unfold hex16. rewrite length_fixedWidth. lia. }
  split; [exact Hzeros|]. split.
  - rewrite !generateOTP_run. unfold otpOf. now rewrite Hzeros.
  - split; [exact Hnum|]. rewrite !generateOTP_run. unfold otpOf. now rewrite Hnum.
Qed.

(** *** The tag of [generateHmac] *)

Lemma bytesOfHex_byte (b : byte) (rest : string) :
  bytesOfHex (padStart 2 "0" (Number_toString 16 (byteNumber b)) ++ rest) =
  b :: bytesOfHex rest.
Proof. destruct b; reflexivity. Qed.

Lemma bytesOfHex_hexOf (bs : list byte) : bytesOfHex (hexOf bs) = bs.
Proof.
  unfold hexOf. induction bs as [|b bs IH]; [reflexivity|].
  cbn [map]. rewrite join_cons, bytesOfHex_byte, IH. reflexivity.
Qed.

(** With a key that is not empty, [generateHmac] is fulfilled with two
    lowercase hexadecimal characters for each byte of the signature, from
    which the bytes are read back: two tags are equal only when the two
    signatures are. *)
Theorem generateHmac_tag_round_trip (key message : string) (w : world) :
  key <> "" ->
  let signature := sign (TextEncoder_encode key) (TextEncoder_encode message) in
  exists tag : string,
    generateHmac sign key message w = (Fulfilled tag, w) /\
    String.length tag = (2 * List.length signature)%nat /\
    isLowerHex tag = true /\
    bytesOfHex tag = signature /\
    (forall key' message' : string,
        tagOf sign key' message' = tag ->
        sign (TextEncoder_encode key') (TextEncoder_encode message') = signature).
Proof.
  intros Hkey signature. exists (tagOf sign key message).
  split; [apply generateHmac_run; exact Hkey|].
  unfold tagOf. fold signature.
  split; [apply length_hexOf|]. split; [apply hexOf_isLowerHex|].
  split; [apply bytesOfHex_hexOf|].
  intros key' message' E. apply (f_equal bytesOfHex) in E.
  now rewrite !bytesOfHex_hexOf in E.
Qed.

(** *** The window functions *)

(** Each window function gives one code on each window: when the clock
    reads an instant of the [k]-th window, from [W * k] included to
    [W * (k + 1)] excluded, before the epoch as after it, the code is the
    one of the counter [k], and one reading of the clock was made. *)
Theorem window_function_constant_on_window
    (W : Z) (f : value -> async string) (secret : value) (w : world) (k : Z) :
  In (W, f) (windowFunctions sign) ->
  W * k <= reading w 0 < W * (k + 1) ->
  f secret w = (Fulfilled (otpOf sign (Num k) secret), tick w).
Proof.
  intros Hin Hk.
  assert (0 < W -> reading w 0 / W = k) as Hdiv.
  { intros HW. symmetry. apply (Z.div_unique_pos _ _ _ (reading w 0 - W * k)); lia. }
  cbn [windowFunctions In] in Hin.
  repeat (destruct Hin as [Heq | Hin];
          [injection Heq as <- <-;
           first [ rewrite generateMonthlyOTP_run | rewrite generateBiWeeklyOTP_run
                 | rewrite generateWeeklyOTP_run | rewrite generateDailyOTP_run
                 | rewrite generateHourlyOTP_run | rewrite generate30MinuteOTP_run
                 | rewrite generateMinutelyOTP_run ];
           rewrite Hdiv by lia; reflexivity|]).
  destruct Hin.
Qed.

End Further.

(** *** The truncation, on the bytes of the signature *)

Lemma byteNumber_bound (b : byte) : 0 <= Z.of_N (Byte.to_N b) < 256.
Proof. pose proof (Byte.to_N_bounded b). lia. Qed.

Lemma hexOf_cons (b : byte) (bs : list byte) :
  hexOf (b :: bs) = fixedWidth 16 2 (Z.of_N (Byte.to_N b)) ++ hexOf bs.
Proof. unfold hexOf. cbn [map]. now rewrite join_cons, byte_hex. Qed.

Lemma substring_empty (n m : nat) : String.substring n m "" = "".
Proof. destruct n, m; reflexivity. Qed.

(** Skipping [i] bytes is skipping [2 * i] characters. *)
Lemma substring_hexOf_skip (i j m : nat) (bs : list byte) :
  String.substring (2 * i + j) m (hexOf bs) = String.substring j m (hexOf (skipn i bs)).
Proof.
  revert bs. induction i as [|i IH]; intros bs; [reflexivity|].
  destruct bs as [|b bs].
  - cbn [skipn]. change (hexOf []) with "". now rewrite !substring_empty.
  - rewrite hexOf_cons. cbn [skipn fixedWidth append].
    replace (2 * S i + j)%nat with (S (S (2 * i + j))) by lia.
    cbn [String.substring]. apply IH.
Qed.

(** Taking [k] bytes is taking [2 * k] characters. *)
Lemma substring_hexOf_take (k : nat) (bs : list byte) :
  (k <= List.length bs)%nat ->
  String.substring 0 (2 * k) (hexOf bs) = hexOf (firstn k bs).
Proof.
  revert bs. induction k as [|k IH]; intros bs Hk.
  - cbn [firstn]. change (hexOf []) with "". destruct (hexOf bs); reflexivity.
  - destruct bs as [|b bs]; [simpl in Hk; lia|].
    cbn [firstn]. rewrite !hexOf_cons. cbn [fixedWidth append].
    replace (2 * S k)%nat with (S (S (2 * k))) by lia.
    cbn [String.substring]. rewrite IH by (simpl in Hk; lia). reflexivity.
Qed.

Lemma numeralValue_app (radix : Z) (s t : string) :
  0 < radix ->
  numeralValue radix (s ++ t) =
  numeralValue radix s * radix ^ Z.of_nat (String.length t) + numeralValue radix t.
Proof.
  intros Hr. induction s as [|c s IH]; [cbn [append numeralValue]; lia|].
  cbn [append numeralValue]. rewrite IH, length_app, Nat2Z.inj_add, Z.pow_add_r by lia.
  ring.
Qed.

Lemma numeralValue_hexOf_from (bs : list byte) (acc : Z) :
  fold_left (fun a b => a * 256 + Z.of_N (Byte.to_N b)) bs acc =
  acc * 16 ^ Z.of_nat (String.length (hexOf bs)) + numeralValue 16 (hexOf bs).
Proof.
  revert acc. induction bs as [|b bs IH]; intros acc.
  - change (hexOf []) with "". cbn [fold_left String.length numeralValue]. lia.
  - cbn [fold_left]. rewrite IH, hexOf_cons, numeralValue_app, length_app by lia.
    rewrite length_fixedWidth, numeralValue_fixedWidth by lia.
    change (16 ^ Z.of_nat 2) with 256.
    rewrite Z.mod_small by apply byteNumber_bound.
    rewrite Nat2Z.inj_add, Z.pow_add_r by lia. change (16 ^ Z.of_nat 2) with 256.
    ring.
Qed.

(** A hexadecimal string read as a numeral is its bytes read big-endian. *)
Lemma numeralValue_hexOf (bs : list byte) : numeralValue 16 (hexOf bs) = bigEndian bs.
Proof. unfold bigEndian. rewrite numeralValue_hexOf_from. lia. Qed.

Lemma skipn_last (bs : list byte) (n : nat) :
  List.length bs = S n -> skipn n bs = [nth n bs x00].
Proof.
  revert bs. induction n as [|n IH]; intros bs H.
  - destruct bs as [|b [|b' bs]]; try discriminate H. reflexivity.
  - destruct bs as [|b bs]; [discriminate H|]. cbn [skipn nth].
    apply IH. simpl in H. lia.
Qed.

Section Truncation_on_bytes.

Variable sign : list byte -> list byte -> list byte.
Hypothesis sign_length : forall key message, List.length (sign key message) = 32%nat.

(** The truncation of [generateOTP], cut on hexadecimal characters, is the
    dynamic truncation of HOTP on the 32 bytes of the signature: the
    offset is the low half of the last byte, and the code is the six-digit
    numeral of the four bytes from that offset on, read big-endian, without
    their top bit, modulo 1,000,000. Only bytes 0 to 18 can be used. *)
Theorem truncation_on_signature_bytes (time : number) (secret : value) (w : world) :
  let signature :=
    sign (TextEncoder_encode (secretHex secret)) (TextEncoder_encode (timeHex time)) in
  let offset := Z.of_N (Byte.to_N (nth 31 signature x00)) mod 16 in
  let word := bigEndian (firstn 4 (skipn (Z.to_nat offset) signature)) in
  0 <= offset <= 15 /\
  List.length (firstn 4 (skipn (Z.to_nat offset) signature)) = 4%nat /\
  (Z.to_nat offset + 4 <= 19)%nat /\
  0 <= word < 2 ^ 32 /\
  generateOTP sign time secret w =
    (Fulfilled (decimal6 ((word mod 2 ^ 31) mod 1000000)), w).
Proof.
  intros signature offset word.
  set (T := tagOf sign (secretHex secret) (timeHex time)).
  assert (T = hexOf signature) as HT by reflexivity.
  assert (List.length signature = 32%nat) as Hlen by apply sign_length.
  assert (isTag T) as Htag by (apply tagOf_isTag; exact sign_length).
  destruct (offsetOf_tag T Htag) as [_ Hob].
  destruct (sliceOf_tag T Htag) as (Hs & _ & _ & Hp & Hw).
  assert (numeralValue 16 (lastChar T) = offset) as Hoffset.
  { unfold lastChar. rewrite (proj1 Htag), HT.
    change (64 - 1)%nat with (2 * 31 + 1)%nat.
    rewrite substring_hexOf_skip, (skipn_last signature 31 Hlen), hexOf_cons.
    change (hexOf []) with "". cbn [fixedWidth append String.substring numeralValue].
    rewrite numeralValueOfChar_numeralChar by (apply Z.mod_pos_bound; lia).
    change (16 ^ Z.of_nat 0) with 1. change (String.length "") with 0%nat.
    change (16 ^ Z.of_nat 0) with 1. rewrite Z.div_1_r. subst offset. lia. }
  rewrite Hoffset in Hob, Hs.
  assert (List.length (firstn 4 (skipn (Z.to_nat offset) signature)) = 4%nat) as Hfour.
  { rewrite length_firstn, length_skipn, Hlen. lia. }
  assert (numeralValue 16 (sliceOf T) = word) as Hword.
  { rewrite Hs, HT.
    replace (Z.to_nat (offset * 2)) with (2 * Z.to_nat offset + 0)%nat by lia.
    change 8%nat with (2 * 4)%nat.
    rewrite substring_hexOf_skip, substring_hexOf_take
      by (rewrite length_skipn, Hlen; lia).
    apply numeralValue_hexOf. }
  rewrite Hword in Hp, Hw.
  split; [exact Hob|]. split; [exact Hfour|]. split; [lia|]. split; [exact Hw|].
  rewrite generateOTP_run. unfold otpOf. fold T.
  rewrite truncateOTP_decimal6, Hp, ToInt32_mod. reflexivity.
Qed.

End Truncation_on_bytes.

(** *** The passes: display and verification *)

Lemma otpOf_six_digits (sign : list byte -> list byte -> list byte)
    (time : number) (secret : value) :
  String.length (otpOf sign time secret) = 6%nat /\
  isDigits (otpOf sign time secret) = true.
Proof.
  unfold otpOf. rewrite truncateOTP_decimal6.
  split; [apply length_fixedWidth | apply fixedWidth_isDigits].
Qed.

Lemma digits_without_space (s : string) :
  isDigits s = true -> forallChars (fun c => negb (Ascii.eqb c " ")) s = true.
Proof.
  apply forallChars_impl. intros c H.
  now rewrite (proj1 (digitChar_facts c H)).
Qed.

Lemma formatOTP_six (otp : string) :
  String.length otp = 6%nat -> isDigits otp = true ->
  String.length (formatOTP otp) = 7%nat /\
  String.get 3 (formatOTP otp) = Some " "%char /\
  isDigits (String.substring 0 3 (formatOTP otp)) = true /\
  isDigits (String.substring 4 3 (formatOTP otp)) = true /\
  removeSpaces (formatOTP otp) = otp.
Proof.
  intros Hlen Hdig.
  destruct (formatOTP_inserts_one_space_aux otp) as (Hparts & Hstrip).
  rewrite Hstrip, (removeSpaces_clean otp (digits_without_space otp Hdig)).
  rewrite Hparts. clear Hparts Hstrip.
  destruct otp as [|c1 [|c2 [|c3 [|c4 [|c5 [|c6 [|c7 r]]]]]]]; try discriminate Hlen.
  unfold isDigits in *. cbn [forallChars] in Hdig.
  repeat (apply andb_true_iff in Hdig as [?H Hdig]).
  cbn [String.length Nat.sub String.substring append String.get forallChars].
  repeat match goal with H : isDigitChar _ = true |- _ => rewrite H; clear H end.
  repeat split.
Qed.

Lemma same_minute_same_window (a b W : Z) :
  In W windows -> a / 60000 = b / 60000 -> a / W = b / W.
Proof.
  intros Hin Hmin.
  assert (forall q : Z, 0 < q -> a / (60000 * q) = b / (60000 * q)) as Hq
    by (intros q Hpos; rewrite <- !Z.div_div by lia; now rewrite Hmin).
  cbn [windows In] in Hin.
  destruct Hin as [<- | [<- | [<- | [<- | [<- | [<- | [<- | []]]]]]]].
  - exact (Hq 43200 ltac:(lia)).
  - exact (Hq 20160 ltac:(lia)).
  - exact (Hq 10080 ltac:(lia)).
  - exact (Hq 1440 ltac:(lia)).
  - exact (Hq 60 ltac:(lia)).
  - exact (Hq 30 ltac:(lia)).
  - exact (Hq 1 ltac:(lia)).
Qed.

Lemma firstMatch_some (candidates : list (string * string)) (code label : string) :
  firstMatch candidates code = Some label -> In (label, code) candidates.
Proof.
  induction candidates as [|[l o] rest IH]; [discriminate|].
  cbn [firstMatch]. destruct (String.eqb_spec o code) as [-> | _].
  - intros E. injection E as <-. now left.
  - intros E. right. exact (IH E).
Qed.

Section Further_passes.

Variable sign : list byte -> list byte -> list byte.

Local Opaque otpOf formatOTP removeSpaces.

Ltac lookups H :=
  unfold present in H; cbn [forallb] in H;
  repeat match type of H with
         | context [document ?w ?id] =>
             let E := fresh "E" in
             destruct (document w id) eqn:E; [|discriminate H]
         end.

Ltac run_windows :=
  erewrite bind_run by apply generateMonthlyOTP_run;
  erewrite bind_run by apply generateBiWeeklyOTP_run;
  erewrite bind_run by apply generateWeeklyOTP_run;
  erewrite bind_run by apply generateDailyOTP_run;
  erewrite bind_run by apply generateHourlyOTP_run;
  erewrite bind_run by apply generate30MinuteOTP_run;
  erewrite bind_run by apply generateMinutelyOTP_run;
  rewrite !reading_tick; cbn [clock ticks document tick].

Lemma testCodes_run (w : world) :
  present w ["secret"; "code"; "test-result"] = true ->
  fst (testCodes sign w) = Fulfilled tt /\
  ticks (snd (testCodes sign w)) = (ticks w + 7)%nat /\
  shown (snd (testCodes sign w)) "test-result" =
    Some (verdict (firstMatch (candidatesOf sign w)
                              (removeSpaces (fieldValue w "code")))).
Proof.
  intros H. lookups H.
  assert (fieldValue w "secret" = value_ e) as Hsecret
    by (unfold fieldValue; now rewrite E).
  assert (fieldValue w "code" = value_ e0) as Hcode
    by (unfold fieldValue; now rewrite E0).
  unfold candidatesOf, freshCodes.
  cbn [combine labels windows seq map fst snd].
  rewrite Hsecret, Hcode.
  unfold testCodes.
  erewrite bind_run by (apply getValue_run; eassumption).
  cbv zeta.
  erewrite bind_run by (apply getValue_run; eassumption).
  run_windows.
  match goal with
  | |- context [find ?p ?l] =>
      pose proof (find_firstMatch l (removeSpaces (value_ e0))) as Hfind;
      cbn [map name fn] in Hfind;
      destruct (find p l) as [m|]
  end;
    cbn [option_map] in Hfind; rewrite <- Hfind;
    (erewrite setInnerText_run by (cbn; eassumption));
    cbn [fst snd clock ticks document tick verdict];
    (split; [reflexivity|]); (split; [lia|]); reflexivity.
Qed.

(** A pass whose seven readings of the clock fall in one minute displays
    the seven codes of that minute: the same ones for any instant [t] of
    the minute, since every window is a whole number of minutes. *)
Theorem pass_within_a_minute_is_consistent (w : world) (t : Z) :
  present w ("secret" :: outputs) = true ->
  (forall i : nat, (i < 7)%nat -> reading w i / 60000 = t / 60000) ->
  map (shown (snd (setInterval_callback sign w))) outputs =
  map (fun W => Some (formatOTP (otpOf sign (Num (t / W))
                                       (VStr (removeSpaces (fieldValue w "secret"))))))
      windows.
Proof.
  intros H Hminute.
  destruct (setInterval_callback_run sign w H)
    as (_ & _ & H0 & H1 & H2 & H3 & H4 & H5 & H6).
  cbn [map outputs windows].
  rewrite H0, H1, H2, H3, H4, H5, H6.
  repeat match goal with
         | |- context [reading w ?i / ?W] =>
             rewrite (same_minute_same_window (reading w i) t W)
               by (first [ apply Hminute; lia | cbn [windows In]; tauto ])
         end.
  reflexivity.
Qed.

(** Every text the pass displays is three digits, a space, three digits:
    in its [i]-th element, the code of the [i]-th window, derived from the
    [i]-th reading of the clock, in two groups. *)
Theorem pass_displays_two_groups_of_three (w : world) (i : nat) :
  present w ("secret" :: outputs) = true ->
  (i < 7)%nat ->
  let otp := otpOf sign (Num (reading w i / nth i windows 1))
                   (VStr (removeSpaces (fieldValue w "secret"))) in
  nth_error (freshCodes sign w) i = Some otp /\
  shown (snd (setInterval_callback sign w)) (nth i outputs "") = Some (formatOTP otp) /\
  String.length otp = 6%nat /\ isDigits otp = true /\
  String.length (formatOTP otp) = 7%nat /\
  String.get 3 (formatOTP otp) = Some " "%char /\
  isDigits (String.substring 0 3 (formatOTP otp)) = true /\
  isDigits (String.substring 4 3 (formatOTP otp)) = true /\
  removeSpaces (formatOTP otp) = otp.
Proof.
  intros H Hi otp.
  destruct (setInterval_callback_run sign w H)
    as (_ & _ & H0 & H1 & H2 & H3 & H4 & H5 & H6).
  destruct (otpOf_six_digits sign (Num (reading w i / nth i windows 1))
              (VStr (removeSpaces (fieldValue w "secret")))) as [Hl Hd].
  fold otp in Hl, Hd.
  destruct (formatOTP_six otp Hl Hd) as (F1 & F2 & F3 & F4 & F5).
  assert (nth_error (freshCodes sign w) i = Some otp /\
          shown (snd (setInterval_callback sign w)) (nth i outputs "") =
            Some (formatOTP otp)) as [Hfresh Hshown].
  { subst otp. unfold freshCodes.
    do 7 (destruct i as [|i];
          [cbn [combine windows seq map fst snd nth_error nth outputs];
           split; [reflexivity | assumption]|]).
    lia. }
  split; [exact Hfresh|]. split; [exact Hshown|].
  split; [exact Hl|]. split; [exact Hd|]. split; [exact F1|]. split; [exact F2|].
  split; [exact F3|]. split; [exact F4 | exact F5].
Qed.

End Further_passes.

(** *** The verification *)

Section Further_verification.

Variable sign : list byte -> list byte -> list byte.

Local Opaque otpOf formatOTP removeSpaces.

Lemma fresh_code_has_label (w : world) (code : string) :
  In code (freshCodes sign w) -> exists label, In (label, code) (candidatesOf sign w).
Proof.
  unfold candidatesOf, freshCodes.
  cbn [combine labels windows seq map fst snd In].
  intros [<- | [<- | [<- | [<- | [<- | [<- | [<- | []]]]]]]];
    [ exists "Monthly" | exists "Bi-Weekly" | exists "Weekly" | exists "Daily"
    | exists "Hourly" | exists "30-Minute" | exists "Minute" ]; tauto.
Qed.

Lemma verdict_match_is_not_no_match (label : string) :
  verdict (Some label) <> verdict None.
Proof. cbn [verdict append]. discriminate. Qed.

(** [testCodes] reports a match exactly when the entered code, its spaces
    taken out, is one of the seven codes it has just computed, and the name
    it reports is the name of a window with that code. An entry that is
    not six decimal digits (nothing, fewer or more characters, a letter) is
    never reported as a match. *)
Theorem testCodes_accepts_only_fresh_codes (w : world) :
  present w ["secret"; "code"; "test-result"] = true ->
  let code := removeSpaces (fieldValue w "code") in
  let result := shown (snd (testCodes sign w)) "test-result" in
  (In code (freshCodes sign w) ->
   exists label : string,
     In (label, code) (candidatesOf sign w) /\
     result = Some ("Code matches " ++ label ++ " code")) /\
  (~ In code (freshCodes sign w) <-> result = Some "Code does not match any code") /\
  (String.length code <> 6%nat \/ isDigits code = false ->
   result = Some "Code does not match any code").
Proof.
  intros H code result.
  destruct (testCodes_run sign w H) as (_ & _ & Hshown).
  fold code in Hshown. fold result in Hshown.
  assert (~ In code (freshCodes sign w) -> result = Some "Code does not match any code")
    as Hnone.
  { intros Hnot. rewrite Hshown.
    assert (firstMatch (candidatesOf sign w) code = None) as ->; [|reflexivity].
    apply firstMatch_none. intros label c Hin ->.
    apply Hnot. exact (in_combine_r _ _ _ _ Hin). }
  split; [|split].
  - intros Hin.
    destruct (firstMatch (candidatesOf sign w) code) as [label|] eqn:Hfirst.
    + exists label. split; [apply firstMatch_some; exact Hfirst | exact Hshown].
    + exfalso. destruct (fresh_code_has_label w code Hin) as [label Hlabel].
      rewrite firstMatch_none in Hfirst. exact (Hfirst label code Hlabel eq_refl).
  - split; [exact Hnone|].
    intros Hres Hin.
    destruct (firstMatch (candidatesOf sign w) code) as [label|] eqn:Hfirst.
    + rewrite Hshown in Hres. apply (verdict_match_is_not_no_match label).
      exact (f_equal (fun o : option string => match o with
                                                | Some text => text
                                                | None => ""
                                                end) Hres).
    + destruct (fresh_code_has_label w code Hin) as [label Hlabel].
      rewrite firstMatch_none in Hfirst. exact (Hfirst label code Hlabel eq_refl).
  - intros Hbad. apply Hnone. intros Hin.
    unfold freshCodes in Hin. apply in_map_iff in Hin as [iW [Heq _]].
    destruct (otpOf_six_digits sign (Num (reading w (fst iW) / snd iW))
                (VStr (removeSpaces (fieldValue w "secret")))) as [Hl Hd].
    rewrite Heq in Hl, Hd. destruct Hbad as [Hbad | Hbad]; congruence.
Qed.

(** A code the pass displays is accepted when typed back as displayed:
    if the entered text is what the pass shows in one of its seven
    elements, the secret is the same up to spaces, and the verification
    reads the clock for that window in the same window as the pass did,
    then [testCodes] reports a match under one of its seven names. *)
Theorem displayed_code_is_accepted (w v : world) (i : nat) :
  present w ("secret" :: outputs) = true ->
  present v ["secret"; "code"; "test-result"] = true ->
  (i < 7)%nat ->
  removeSpaces (fieldValue v "secret") = removeSpaces (fieldValue w "secret") ->
  shown (snd (setInterval_callback sign w)) (nth i outputs "") =
    Some (fieldValue v "code") ->
  reading v i / nth i windows 1 = reading w i / nth i windows 1 ->
  exists label : string,
    In label labels /\
    shown (snd (testCodes sign v)) "test-result" =
      Some ("Code matches " ++ label ++ " code").
Proof.
  intros Hw Hv Hi Hsecret Hshown Hwindow.
  destruct (setInterval_callback_run sign w Hw)
    as (_ & _ & H0 & H1 & H2 & H3 & H4 & H5 & H6).
  destruct (testCodes_run sign v Hv) as (_ & _ & Hresult).
  assert (In (removeSpaces (fieldValue v "code")) (freshCodes sign v)) as Hin.
  { assert (forall W, nth i windows 1 = W ->
              fieldValue v "code" =
                formatOTP (otpOf sign (Num (reading w i / W))
                                 (VStr (removeSpaces (fieldValue w "secret")))) ->
              In (otpOf sign (Num (reading v i / W))
                        (VStr (removeSpaces (fieldValue v "secret"))))
                 (freshCodes sign v) ->
              In (removeSpaces (fieldValue v "code")) (freshCodes sign v)) as Hstep.
    { intros W HW Hfield Hfresh. rewrite Hfield.
      destruct (otpOf_six_digits sign (Num (reading w i / W))
                  (VStr (removeSpaces (fieldValue w "secret")))) as [Hl Hd].
      rewrite (proj2 (proj2 (proj2 (proj2 (formatOTP_six _ Hl Hd))))).
      rewrite <- Hsecret. rewrite HW in Hwindow. rewrite <- Hwindow. exact Hfresh. }
    do 7 (destruct i as [|i];
          [cbn [nth outputs] in Hshown; cbn [nth windows] in Hstep;
           first [ rewrite H0 in Hshown | rewrite H1 in Hshown | rewrite H2 in Hshown
                 | rewrite H3 in Hshown | rewrite H4 in Hshown | rewrite H5 in Hshown
                 | rewrite H6 in Hshown ];
           injection Hshown as Hshown;
           eapply Hstep;
           [ reflexivity
           | symmetry; exact Hshown
           | unfold freshCodes; cbn [combine windows seq map fst snd In]; tauto ]|]).
    lia. }
  destruct (firstMatch (candidatesOf sign v) (removeSpaces (fieldValue v "code")))
    as [label|] eqn:Hfirst.
  - exists label. split; [|exact Hresult].
    apply firstMatch_some in Hfirst. exact (in_combine_l _ _ _ _ Hfirst).
  - exfalso. destruct (fresh_code_has_label v _ Hin) as [label Hlabel].
    rewrite firstMatch_none in Hfirst. exact (Hfirst label _ Hlabel eq_refl).
Qed.

End Further_verification.

(** *** When the script is rejected *)

Section Further_rejections.

Variable sign : list byte -> list byte -> list byte.

Local Opaque otpOf formatOTP removeSpaces.

Ltac advance :=
  repeat first
    [ progress cbv zeta
    | match goal with
      | |- context [bind (getValue _) _ _] =>
          erewrite bind_run by (apply getValue_run; eassumption)
      | |- context [bind (generateMonthlyOTP _ _) _ _] =>
          erewrite bind_run by apply generateMonthlyOTP_run
      | |- context [bind (generateBiWeeklyOTP _ _) _ _] =>
          erewrite bind_run by apply generateBiWeeklyOTP_run
      | |- context [bind (generateWeeklyOTP _ _) _ _] =>
          erewrite bind_run by apply generateWeeklyOTP_run
      | |- context [bind (generateDailyOTP _ _) _ _] =>
          erewrite bind_run by apply generateDailyOTP_run
      | |- context [bind (generateHourlyOTP _ _) _ _] =>
          erewrite bind_run by apply generateHourlyOTP_run
      | |- context [bind (generate30MinuteOTP _ _) _ _] =>
          erewrite bind_run by apply generate30MinuteOTP_run
      | |- context [bind (generateMinutelyOTP _ _) _ _] =>
          erewrite bind_run by apply generateMinutelyOTP_run
      | |- context [bind (setInnerText _ _) _ _] =>
          erewrite bind_run by (apply setInnerText_run; cbn; eassumption);
          cbn [clock ticks document tick]
      end ].

Lemma getValue_missing (id : string) (w : world) :
  document w id = None -> getValue id w = (Rejected TypeError, w).
Proof. intros H. unfold getValue. now rewrite H. Qed.

Lemma setInnerText_missing (id text : string) (w : world) :
  document w id = None -> setInnerText id text w = (Rejected TypeError, w).
Proof. intros H. unfold setInnerText. now rewrite H. Qed.

Ltac absent :=
  first [apply getValue_missing | apply setInnerText_missing]; cbn; eassumption.

Ltac missing :=
  match goal with
  | |- context [bind (getValue _) _ _] => erewrite bind_rejected by absent
  | |- context [bind (setInnerText _ _) _ _] => erewrite bind_rejected by absent
  | |- context [setInnerText _ _ _] => erewrite setInnerText_missing by (cbn; eassumption)
  end;
  reflexivity.

Ltac look id :=
  let E := fresh "E" in
  destruct (document _ id) eqn:E; [|solve [advance; missing]].

(** The pass is fulfilled exactly when the page has the secret field and
    the seven code elements, the verification exactly when it has the
    secret field, the code field and the result element; otherwise the
    promise is rejected with a TypeError. Without the secret field nothing
    is read from the clock and nothing is displayed. *)
Theorem script_rejected_without_its_elements (w : world) :
  fst (setInterval_callback sign w) =
    (if present w ("secret" :: outputs) then Fulfilled tt else Rejected TypeError) /\
  fst (testCodes sign w) =
    (if present w ["secret"; "code"; "test-result"]
     then Fulfilled tt else Rejected TypeError) /\
  (document w "secret" = None ->
   setInterval_callback sign w = (Rejected TypeError, w) /\
   testCodes sign w = (Rejected TypeError, w)).
Proof.
  split; [|split].
  - destruct (present w ("secret" :: outputs)) eqn:H.
    + exact (proj1 (setInterval_callback_run sign w H)).
    + unfold present in H. cbn [forallb outputs] in H.
      unfold setInterval_callback.
      look "secret". look "monthly-otp". look "biweekly-otp". look "weekly-otp".
      look "daily-otp". look "hourly-otp". look "30-minute-otp". look "minute-otp".
      discriminate H.
  - destruct (present w ["secret"; "code"; "test-result"]) eqn:H.
    + exact (proj1 (testCodes_run sign w H)).
    + unfold present in H. cbn [forallb] in H.
      unfold testCodes.
      look "secret". look "code".
      destruct (document w "test-result") eqn:E1; [discriminate H|].
      advance.
      match goal with |- context [find ?p ?l] => destruct (find p l) end;
        (erewrite setInnerText_missing by (cbn; eassumption)); reflexivity.
  - intros E. split.
    + unfold setInterval_callback.
      erewrite bind_rejected by (apply getValue_missing; exact E). reflexivity.
    + unfold testCodes.
      erewrite bind_rejected by (apply getValue_missing; exact E). reflexivity.
Qed.

End Further_rejections.

(** *** The further properties on concrete inputs *)

Lemma time_counter_reads_back_witness :
  0 <= 28333333 < 2 ^ 53 /\
  numeralValue 16 (timeHex (Num 28333333)) = 28333333 /\
  parseInt (timeHex (Num 28333333)) 16 = Num 28333333.
Proof.
  assert (0 <= 28333333 < 2 ^ 53) as Ht by lia.
  destruct (time_counter_reads_back 28333333 Ht) as (_ & _ & Hvalue & Hparse & _).
  split; [exact Ht|]. split; [exact Hvalue | exact Hparse].
Defined.

Lemma secrets_with_the_same_codes_witness :
  (3 + String.length "1234" <= 16)%nat /\
  0 <= 255 < 2 ^ 53 /\
  generateOTP SHA256.hmac (Num 0) (VStr (repeatChar 3 "0" ++ "1234")) unlocking =
    generateOTP SHA256.hmac (Num 0) (VStr "1234") unlocking /\
  generateOTP SHA256.hmac (Num 0) (VStr (hex16 255)) unlocking =
    generateOTP SHA256.hmac (Num 0) (VNum (Num 255)) unlocking.
Proof.
  assert (3 + String.length "1234" <= 16)%nat as Hk by (cbn [String.length]; lia).
  assert (0 <= 255 < 2 ^ 53) as Hn by lia.
  destruct (secrets_with_the_same_codes SHA256.hmac "1234" 3 255 (Num 0) unlocking Hk Hn)
    as (_ & Hzeros & _ & Hnumber).
  split; [exact Hk|]. split; [exact Hn|]. split; [exact Hzeros | exact Hnumber].
Defined.

Lemma generateHmac_tag_round_trip_witness :
  "0000000000000001" <> "" /\
  exists tag : string,
    generateHmac SHA256.hmac "0000000000000001" "0000000000000000" unlocking =
      (Fulfilled tag, unlocking) /\
    bytesOfHex tag =
      SHA256.hmac (TextEncoder_encode "0000000000000001")
                  (TextEncoder_encode "0000000000000000").
Proof.
  assert ("0000000000000001" <> "") as Hkey by discriminate.
  destruct (generateHmac_tag_round_trip SHA256.hmac
              "0000000000000001" "0000000000000000" unlocking Hkey)
    as (tag & Hrun & _ & _ & Hbytes & _).
  split; [exact Hkey|]. exists tag. split; [exact Hrun | exact Hbytes].
Defined.

Lemma window_function_constant_on_window_witness :
  In (60000, generateMinutelyOTP SHA256.hmac) (windowFunctions SHA256.hmac) /\
  60000 * 28333333 <= reading unlocking 0 < 60000 * (28333333 + 1) /\
  generateMinutelyOTP SHA256.hmac (VStr "1234") unlocking =
    (Fulfilled (otpOf SHA256.hmac (Num 28333333) (VStr "1234")), tick unlocking).
Proof.
  assert (In (60000, generateMinutelyOTP SHA256.hmac) (windowFunctions SHA256.hmac)) as Hin
    by (do 6 right; left; reflexivity).
  assert (60000 * 28333333 <= reading unlocking 0 < 60000 * (28333333 + 1)) as Hk
    by (change (reading unlocking 0) with 1700000000000; lia).
  split; [exact Hin|]. split; [exact Hk|].
  exact (window_function_constant_on_window SHA256.hmac 60000
           (generateMinutelyOTP SHA256.hmac) (VStr "1234") unlocking 28333333 Hin Hk).
Defined.

Lemma truncation_on_signature_bytes_witness :
  (forall key message, List.length (SHA256.hmac key message) = 32%nat) /\
  generateOTP SHA256.hmac (Num 0) (VStr "0000000000000001") unlocking =
    (Fulfilled
       (decimal6
          ((bigEndian
              (firstn 4
                 (skipn
                    (Z.to_nat
                       (Z.of_N
                          (Byte.to_N
                             (nth 31
                                (SHA256.hmac
                                   (TextEncoder_encode (secretHex (VStr "0000000000000001")))
                                   (TextEncoder_encode (timeHex (Num 0))))
                                x00)) mod 16))
                    (SHA256.hmac
                       (TextEncoder_encode (secretHex (VStr "0000000000000001")))
                       (TextEncoder_encode (timeHex (Num 0))))))
              mod 2 ^ 31) mod 1000000)),
     unlocking).
Proof.
  split; [exact length_hmac|].
  exact (proj2 (proj2 (proj2 (proj2
           (truncation_on_signature_bytes SHA256.hmac length_hmac
              (Num 0) (VStr "0000000000000001") unlocking))))).
Defined.

Lemma pass_within_a_minute_is_consistent_witness :
  present unlocking ("secret" :: outputs) = true /\
  (forall i : nat, (i < 7)%nat -> reading unlocking i / 60000 = 1700000012345 / 60000) /\
  map (shown (snd (setInterval_callback SHA256.hmac unlocking))) outputs =
  map (fun W => Some (formatOTP (otpOf SHA256.hmac (Num (1700000012345 / W))
                                       (VStr (removeSpaces (fieldValue unlocking "secret"))))))
      windows.
Proof.
  assert (forall i : nat, (i < 7)%nat -> reading unlocking i / 60000 = 1700000012345 / 60000)
    as Hminute by (intros i _; reflexivity).
  split; [reflexivity|]. split; [exact Hminute|].
  exact (pass_within_a_minute_is_consistent SHA256.hmac unlocking 1700000012345
           eq_refl Hminute).
Defined.

Lemma pass_displays_two_groups_of_three_witness :
  present unlocking ("secret" :: outputs) = true /\
  (6 < 7)%nat /\
  shown (snd (setInterval_callback SHA256.hmac unlocking)) (nth 6 outputs "") =
    Some (formatOTP (otpOf SHA256.hmac (Num (reading unlocking 6 / nth 6 windows 1))
                           (VStr (removeSpaces (fieldValue unlocking "secret"))))) /\
  String.length (otpOf SHA256.hmac (Num (reading unlocking 6 / nth 6 windows 1))
                       (VStr (removeSpaces (fieldValue unlocking "secret")))) = 6%nat.
Proof.
  assert (6 < 7)%nat as Hi by lia.
  pose proof (pass_displays_two_groups_of_three SHA256.hmac unlocking 6 eq_refl Hi) as H.
  cbv zeta in H. destruct H as (_ & Hshown & Hlength & _).
  split; [reflexivity|]. split; [exact Hi|]. split; [exact Hshown | exact Hlength].
Defined.

Lemma testCodes_accepts_only_fresh_codes_witness :
  present unlocking ["secret"; "code"; "test-result"] = true /\
  (~ In (removeSpaces (fieldValue unlocking "code")) (freshCodes SHA256.hmac unlocking) <->
   shown (snd (testCodes SHA256.hmac unlocking)) "test-result" =
     Some "Code does not match any code").
Proof.
  split; [reflexivity|].
  exact (proj1 (proj2 (testCodes_accepts_only_fresh_codes SHA256.hmac unlocking eq_refl))).
Defined.

Lemma displayed_code_is_accepted_witness :
  present unlocking ("secret" :: outputs) = true /\
  present unlocking ["secret"; "code"; "test-result"] = true /\
  (6 < 7)%nat /\
  shown (snd (setInterval_callback SHA256.hmac unlocking)) (nth 6 outputs "") =
    Some (fieldValue unlocking "code") /\
  exists label : string,
    In label labels /\
    shown (snd (testCodes SHA256.hmac unlocking)) "test-result" =
      Some ("Code matches " ++ label ++ " code").
Proof.
  assert (6 < 7)%nat as Hi by lia.
  assert (shown (snd (setInterval_callback SHA256.hmac unlocking)) (nth 6 outputs "") =
          Some (fieldValue unlocking "code")) as Hshown by (vm_compute; reflexivity).
  split; [reflexivity|]. split; [reflexivity|]. split; [exact Hi|]. split; [exact Hshown|].
  exact (displayed_code_is_accepted SHA256.hmac unlocking unlocking 6
           eq_refl eq_refl Hi eq_refl Hshown eq_refl).
Defined.
